(** * The SageMaker vector-store inference hooks ([src/inference.py])

    A shallow embedding of the four hooks [model_fn], [input_fn],
    [predict_fn] and [output_fn], and of the parts of the Python
    runtime they rely on:

    - Python [str] values are lists of Unicode code points;
    - Python [int] values are [Z];
    - exceptions are the [Err] side of a [result];
    - a [dict] is an association list in insertion order, the order in
      which [json.dumps] walks it;
    - the libraries behind the hooks ([json.loads], the langchain
      embedding constructor, [FAISS.load_local], [similarity_search])
      are interfaces, with reference instances to run the hooks on. *)

From Stdlib Require Import ZArith NArith String Ascii List Bool Lia.
From Stdlib Require Import DecimalString DecimalZ.
From stdpp Require Import base option list list_numbers gmap.

Local Open Scope Z_scope.

(** ** Python values *)

Module Py.

(** A Python [str]: its code points. *)
Abbreviation str := (list N).

(** An ASCII literal of the source, as a [str]. *)
Definition lit (s : string) : str :=
  map N_of_ascii (list_ascii_of_string s).
Global Arguments lit s%_string.

(** The exceptions the hooks and their libraries raise. *)
Inductive exn : Type :=
| ValueError (msg : str)
| JSONDecodeError (msg : str) (pos : Z)
| KeyError (key : str)
| TypeError (msg : str)
| IndexError (msg : str)
| AttributeError (msg : str)
| LibraryError (msg : str).

Inductive result (A : Type) : Type :=
| Ok (a : A)
| Err (e : exn).
Global Arguments Ok {A} a.
Global Arguments Err {A} e.

Definition bind {A B} (c : result A) (k : A -> result B) : result B :=
  match c with
  | Ok a => k a
  | Err e => Err e
  end.

Definition is_ok {A} (c : result A) : bool :=
  match c with Ok _ => true | Err _ => false end.

(** [len(l)] *)
Definition len {A} (l : list A) : Z := Z.of_nat (length l).

(** [range(n)] *)
Definition range (n : Z) : list Z := seqZ 0 n.

(** [l[i]]: a negative index counts from the end, an index out of
    range raises [IndexError]. *)
Definition list_getitem {A} (l : list A) (i : Z) : result A :=
  let j := if i <? 0 then i + len l else i in
  if (j <? 0) || (len l <=? j)
  then Err (IndexError (lit "list index out of range"))
  else match l !! Z.to_nat j with
       | Some x => Ok x
       | None => Err (IndexError (lit "list index out of range"))
       end.

(** [repr] of an [int]: decimal digits, with a sign when negative. *)
Definition int_repr (n : Z) : str :=
  lit (NilZero.string_of_int (Z.to_int n)).

(** What a cell of [output_fn]'s dictionary holds: the [int] the
    dictionary is built with, or the [str] the loop stores. *)
Inductive item : Type :=
| IntItem (n : Z)
| StrItem (s : str).

(** [d[k] = v] on a [dict] kept in insertion order: an existing key
    keeps its place, a new key goes last. *)
Fixpoint dict_setitem {K V} `{EqDecision K} (d : list (K * V)) (k : K) (v : V)
    : list (K * V) :=
  match d with
  | [] => [(k, v)]
  | (k', v') :: d' =>
      if decide (k' = k) then (k', v) :: d'
      else (k', v') :: dict_setitem d' k v
  end.

(** [dict(pairs)] *)
Definition dict_of_pairs {K V} `{EqDecision K} (pairs : list (K * V))
    : list (K * V) :=
  fold_left (fun d kv => dict_setitem d (fst kv) (snd kv)) pairs [].

(** [d.get(k)] *)
Fixpoint dict_get {K V} `{EqDecision K} (d : list (K * V)) (k : K) : option V :=
  match d with
  | [] => None
  | (k', v) :: d' => if decide (k' = k) then Some v else dict_get d' k
  end.

Definition dict_keys {K V} (d : list (K * V)) : list K := map fst d.
Definition dict_values {K V} (d : list (K * V)) : list V := map snd d.

(** The [dict] of [output_fn]: [int] keys. *)
Abbreviation dict := (list (Z * item)).

(** What [json.loads] returns. A number with a fraction or an
    exponent is kept as the text of its literal. *)
#[warnings="-register-all"]
Inductive pyval : Type :=
| PyNone
| PyBool (b : bool)
| PyInt (n : Z)
| PyFloat (literal : str)
| PyStr (s : str)
| PyList (l : list pyval)
| PyDict (d : list (str * pyval)).

(** [v[key]] for a [str] key: only a [dict] can be indexed that way. *)
Definition getitem (v : pyval) (key : str) : result pyval :=
  match v with
  | PyDict d =>
      match dict_get d key with
      | Some x => Ok x
      | None => Err (KeyError key)
      end
  | PyList _ => Err (TypeError (lit "list indices must be integers or slices, not str"))
  | PyStr _ => Err (TypeError (lit "string indices must be integers"))
  | PyNone => Err (TypeError (lit "'NoneType' object is not subscriptable"))
  | PyBool _ => Err (TypeError (lit "'bool' object is not subscriptable"))
  | PyInt _ => Err (TypeError (lit "'int' object is not subscriptable"))
  | PyFloat _ => Err (TypeError (lit "'float' object is not subscriptable"))
  end.

(** [s.startswith(c)] and [s.endswith(c)] for one character [c]. *)
Definition startswith (s : str) (c : N) : bool :=
  match head s with Some c' => (c' =? c)%N | None => false end.

Definition endswith (s : str) (c : N) : bool :=
  match last s with Some c' => (c' =? c)%N | None => false end.

(** [os.path.join(a, b)] on POSIX, where [sep] is the slash. *)
Definition os_path_join (a b : str) : str :=
  let sep := 47%N in
  if startswith b sep then b
  else if match a with [] => true | _ => endswith a sep end then a ++ b
  else a ++ [sep] ++ b.

End Py.

Import Py.

Notation "x <- c ;; k" := (Py.bind c (fun x => k))
  (at level 100, c at next level, right associativity).

(** ** [json.dumps] on the dictionaries [output_fn] builds *)

Module Json.

(** One lower-case hexadecimal digit. *)
Definition hex_digit (n : N) : N :=
  (if n <? 10 then 48 + n else 87 + n)%N.

(** ['\\u{0:04x}'.format(n)] for [n < 0x10000]. *)
Definition u_escape (n : N) : str :=
  [92; 117;
   hex_digit (N.shiftr n 12 mod 16); hex_digit (N.shiftr n 8 mod 16);
   hex_digit (N.shiftr n 4 mod 16); hex_digit (n mod 16)]%N.

(** The replacement of one code point under [ensure_ascii=True]:
    the short escapes of [ESCAPE_DCT], printable ASCII as it is, the
    rest as one [\uXXXX] or a surrogate pair. *)
Definition escape_char (c : N) : str :=
  (if c =? 34 then [92; 34]
   else if c =? 92 then [92; 92]
   else if c =? 10 then [92; 110]
   else if c =? 13 then [92; 114]
   else if c =? 9 then [92; 116]
   else if c =? 12 then [92; 102]
   else if c =? 8 then [92; 98]
   else if (32 <=? c) && (c <=? 126) then [c]
   else if c <? 65536 then u_escape c
   else
     let n := c - 65536 in
     u_escape (N.lor 55296 (N.land (N.shiftr n 10) 1023)) ++
     u_escape (N.lor 56320 (N.land n 1023)))%N.

(** [py_encode_basestring_ascii] *)
Definition encode_basestring_ascii (s : str) : str :=
  [34%N] ++ concat (map escape_char s) ++ [34%N].

Definition dumps_item (v : item) : str :=
  match v with
  | IntItem n => int_repr n
  | StrItem s => encode_basestring_ascii s
  end.

(** One member of an object: the key as a string, the value. *)
Definition member_text (m : str * item) : str :=
  encode_basestring_ascii (fst m) ++ lit ": " ++ dumps_item (snd m).

(** [sep.join(parts)] *)
Fixpoint join (sep : str) (parts : list str) : str :=
  match parts with
  | [] => []
  | [p] => p
  | p :: rest => p ++ sep ++ join sep rest
  end.

(** The text of a JSON object, members in the order given, with the
    default separators. *)
Definition object_text (members : list (str * item)) : str :=
  match members with
  | [] => lit "{}"
  | _ => lit "{" ++ join (lit ", ") (member_text <$> members) ++ lit "}"
  end.

(** The members [json.dumps] writes for a [dict] with [int] keys: each
    key becomes the string of its [repr]. *)
Definition members_of (d : dict) : list (str * item) :=
  (fun kv => (int_repr (fst kv), snd kv)) <$> d.

(** [json.dumps(d)] *)
Definition dumps (d : dict) : str := object_text (members_of d).

End Json.

(** ** The result records *)

(** A langchain [Document]: the passage text and its metadata, a
    [dict] with [str] keys. *)
Record Document : Type := mkDocument {
  page_content : str;
  metadata : list (str * pyval)
}.

(** ** [output_fn] *)

(** The [for ind in range(len(predictions))] loop of [output_fn]. *)
Fixpoint output_loop (predictions : list Document) (inds : list Z)
    (out_dict : dict) : result dict :=
  match inds with
  | [] => Ok out_dict
  | ind :: rest =>
      p <- list_getitem predictions ind ;;
      output_loop predictions rest
        (dict_setitem out_dict ind (StrItem (page_content p)))
  end.

(** The dictionary [output_fn] builds before its loop: the keys
    [0 .. n-1], each mapped to itself. *)
Definition initial_dict (predictions : list Document) : dict :=
  dict_of_pairs (zip (range (len predictions))
                     (IntItem <$> range (len predictions))).

(** The dictionary as it is when [json.dumps] receives it. *)
Definition output_dict (predictions : list Document) : result dict :=
  output_loop predictions (range (len predictions)) (initial_dict predictions).

Definition output_fn (predictions : list Document) (content_type : str)
    : result str :=
  out_dict <- output_dict predictions ;;
  Ok (Json.dumps out_dict).

(** The text payloads of the records, as the loop stores them. *)
Definition payloads (predictions : list Document) : list item :=
  (fun p => StrItem (page_content p)) <$> predictions.

(** ** The libraries behind the hooks *)

(** The keyword arguments [HuggingFaceBgeEmbeddings] is called with. *)
Record BgeArgs : Type := mkBgeArgs {
  model_name : str;
  model_kwargs : list (str * pyval);
  encode_kwargs : list (str * pyval);
  query_instruction : str
}.

(** The [json] module, as far as [input_fn] uses it. *)
Class JsonLib : Type := {
  json_loads : str -> result pyval
}.

(** langchain, as far as the hooks use it. [VectorStore] is the state
    of a FAISS store object with all it refers to, its embedding
    function included; [similarity_search] returns its result and the
    state it leaves the object in. The search receives the two
    arguments as they come, of whatever type. *)
Class LangChain : Type := {
  Embeddings : Type;
  VectorStore : Type;
  HuggingFaceBgeEmbeddings : BgeArgs -> result Embeddings;
  FAISS_load_local : str -> Embeddings -> result VectorStore;
  embedding_function : VectorStore -> Embeddings;
  similarity_search :
    VectorStore -> pyval -> pyval -> result (list Document) * VectorStore
}.

(** ** The process: objects and library calls *)

Abbreviation loc := positive.

Section Hooks.

Context `{JL : JsonLib} `{LC : LangChain}.

(** The calls into langchain, in the order they are made. *)
Inductive Call : Type :=
| CallEmbeddings (args : BgeArgs)
| CallLoadLocal (path : str) (embeddings : Embeddings)
| CallSearch (vs : loc) (text k : pyval).

(** The vector store objects of the process and the calls so far. *)
Record World : Type := mkWorld {
  heap : gmap loc VectorStore;
  calls : list Call
}.

(** A computation that may raise, on a process it may change. *)
Definition M (A : Type) : Type := World -> result A * World.

Definition mret {A} (a : A) : M A := fun w => (Ok a, w).

Definition mbind {A B} (c : M A) (k : A -> M B) : M B :=
  fun w =>
    match c w with
    | (Ok a, w') => k a w'
    | (Err e, w') => (Err e, w')
    end.

Definition lift {A} (r : result A) : M A := fun w => (r, w).

Definition log (c : Call) : M unit :=
  fun w => (Ok tt, mkWorld (heap w) (calls w ++ [c])).

Local Notation "x <~ c ;; k" := (mbind c (fun x => k))
  (at level 100, c at next level, right associativity).

(** The constructor call [HuggingFaceBgeEmbeddings(...)]. *)
Definition new_embeddings (args : BgeArgs) : M Embeddings :=
  _ <~ log (CallEmbeddings args) ;;
  lift (HuggingFaceBgeEmbeddings args).

(** [FAISS.load_local(path, embeddings)]: a new object of the process. *)
Definition load_local (path : str) (embeddings : Embeddings) : M loc :=
  _ <~ log (CallLoadLocal path embeddings) ;;
  vs <~ lift (FAISS_load_local path embeddings) ;;
  fun w =>
    let l := fresh (dom (heap w)) in
    (Ok l, mkWorld (<[l := vs]> (heap w)) (calls w)).

(** Looking up the attribute [vs.similarity_search]. *)
Definition getattr_similarity_search (vs : loc) : M loc :=
  fun w =>
    match heap w !! vs with
    | Some _ => (Ok vs, w)
    | None =>
        (Err (AttributeError (lit "object has no attribute 'similarity_search'")), w)
    end.

(** Calling the bound method: the object is read when the call is
    made and left in the state the search leaves it in. *)
Definition call_similarity_search (vs : loc) (text k : pyval)
    : M (list Document) :=
  _ <~ log (CallSearch vs text k) ;;
  fun w =>
    match heap w !! vs with
    | Some o =>
        let (r, o') := similarity_search o text k in
        (r, mkWorld (<[vs := o']> (heap w)) (calls w))
    | None =>
        (Err (AttributeError (lit "object has no attribute 'similarity_search'")), w)
    end.

(** ** [model_fn] *)

Definition model_fn (model_dir : str) : M loc :=
  let model_name := lit "BAAI/bge-small-en-v1.5" in
  let model_kwargs := [(lit "device", PyStr (lit "cpu"))] in
  let encode_kwargs := [(lit "normalize_embeddings", PyBool false)] in
  hf <~ new_embeddings
          (mkBgeArgs model_name model_kwargs encode_kwargs
             (lit "Represent this sentence for searching relevant passages: ")) ;;
  let vs_path := os_path_join model_dir (lit "faiss_vector_store") in
  vs <~ load_local vs_path hf ;;
  mret vs.

(** ** [input_fn] *)

Definition input_fn (request_body request_content_type : str) : result pyval :=
  if decide (request_content_type = lit "application/json")
  then
    request_body <- json_loads request_body ;;
    Ok request_body
  else Err (ValueError (lit "Content type must be application/json")).

(** ** [predict_fn] *)

Definition predict_fn (input_data : pyval) (model : loc) : M (list Document) :=
  let vs := model in
  search <~ getattr_similarity_search vs ;;
  text <~ lift (getitem input_data (lit "text")) ;;
  k <~ lift (getitem input_data (lit "k")) ;;
  results <~ call_similarity_search search text k ;;
  mret results.

(** ** The model server

    One request, as the docstrings of the hooks have it: [predict_fn]
    on the return value of [input_fn], then [output_fn]. *)

Record Request : Type := mkRequest {
  body : str;
  content_type : str;
  accept : str
}.

Definition transform (model : loc) (req : Request) : M str :=
  input_data <~ lift (input_fn (body req) (content_type req)) ;;
  predictions <~ predict_fn input_data model ;;
  lift (output_fn predictions (accept req)).

(** A run of requests, one after the other, on one loaded model. *)
Fixpoint serve (model : loc) (reqs : list Request) (w : World)
    : list (result str) * World :=
  match reqs with
  | [] => ([], w)
  | req :: rest =>
      let (r, w') := transform model req w in
      let (rs, w'') := serve model rest w' in
      (r :: rs, w'')
  end.

(** ** Names for the statements *)

Definition content_type_error : exn :=
  ValueError (lit "Content type must be application/json").

(** The arguments [model_fn] builds the embedding function with. *)
Definition bge_args : BgeArgs :=
  mkBgeArgs (lit "BAAI/bge-small-en-v1.5")
            [(lit "device", PyStr (lit "cpu"))]
            [(lit "normalize_embeddings", PyBool false)]
            (lit "Represent this sentence for searching relevant passages: ").

(** The process after a search on the object at [model]. *)
Definition after_search (model : loc) (o : VectorStore) (text k : pyval)
    (w : World) : World :=
  mkWorld (<[model := snd (similarity_search o text k)]> (heap w))
          (calls w ++ [CallSearch model text k]).

End Hooks.

(** ** A reference [json.loads]

    The decoder of the [json] module on a [str] document: [scan_once]
    with its array and object loops, [scanstring] in strict mode and
    the number pattern (ASCII digits). It stands in for [json.loads]
    where a hook is run on a concrete request body. *)

Module JsonRef.

Definition chr (a : ascii) : N := N_of_ascii a.
Global Arguments chr a%_char.

Definition QUOTE : N := 34.
Definition BACKSLASH : N := 92.

Definition is_ws (c : N) : bool :=
  ((c =? 32) || (c =? 9) || (c =? 10) || (c =? 13))%N.

Fixpoint skip_ws (s : str) : str :=
  match s with
  | c :: rest => if is_ws c then skip_ws rest else s
  | [] => []
  end.

Definition is_digit (c : N) : bool := ((48 <=? c) && (c <=? 57))%N.

Definition hex_value (c : N) : option N :=
  (if is_digit c then Some (c - 48)
   else if (97 <=? c) && (c <=? 102) then Some (c - 87)
   else if (65 <=? c) && (c <=? 70) then Some (c - 55)
   else None)%N.

(** [s] without the prefix [p], when it starts with it. *)
Fixpoint strip_prefix (p s : str) : option str :=
  match p, s with
  | [], _ => Some s
  | a :: p', b :: s' => if (a =? b)%N then strip_prefix p' s' else None
  | _ :: _, [] => None
  end.

(** The four hexadecimal digits after [\u]. *)
Definition decode_uXXXX (s : str) : option (N * str) :=
  match s with
  | a :: b :: c :: d :: rest =>
      match hex_value a, hex_value b, hex_value c, hex_value d with
      | Some x, Some y, Some z, Some w =>
          Some ((((x * 16 + y) * 16 + z) * 16 + w)%N, rest)
      | _, _, _, _ => None
      end
  | _ => None
  end.

(** The character a short escape stands for. *)
Definition unescape (esc : N) : option N :=
  (if esc =? QUOTE then Some QUOTE
   else if esc =? BACKSLASH then Some BACKSLASH
   else if esc =? chr "/" then Some (chr "/")
   else if esc =? chr "b" then Some 8
   else if esc =? chr "f" then Some 12
   else if esc =? chr "n" then Some 10
   else if esc =? chr "r" then Some 13
   else if esc =? chr "t" then Some 9
   else None)%N.

Fixpoint span_digits (s : str) : str * str :=
  match s with
  | c :: rest =>
      if is_digit c
      then let (ds, rest') := span_digits rest in (c :: ds, rest')
      else ([], s)
  | [] => ([], [])
  end.

(** The integer part: an optional minus sign, then [0] or a digit
    other than [0] followed by digits. *)
Definition match_integer (s : str) : option (str * str) :=
  let (sign, s1) :=
    match s with
    | c :: rest => if (c =? chr "-")%N then ([c], rest) else ([], s)
    | [] => ([], s)
    end in
  match s1 with
  | c :: rest =>
      if (c =? chr "0")%N then Some (sign ++ [c], rest)
      else if is_digit c
      then let (ds, rest') := span_digits s1 in Some (sign ++ ds, rest')
      else None
  | [] => None
  end.

(** The optional fraction: a dot and at least one digit. *)
Definition match_frac (s : str) : str * str :=
  match s with
  | c :: rest =>
      if (c =? chr ".")%N
      then match span_digits rest with
           | ([], _) => ([], s)
           | (ds, rest') => (c :: ds, rest')
           end
      else ([], s)
  | [] => ([], s)
  end.

(** The optional exponent: [e] or [E], an optional sign, at least one
    digit. *)
Definition match_exp (s : str) : str * str :=
  match s with
  | e :: rest =>
      if ((e =? chr "e") || (e =? chr "E"))%N
      then
        let (sign, s1) :=
          match rest with
          | c :: rest' =>
              if ((c =? chr "-") || (c =? chr "+"))%N then ([c], rest') else ([], rest)
          | [] => ([], rest)
          end in
        match span_digits s1 with
        | ([], _) => ([], s)
        | (ds, rest') => (e :: sign ++ ds, rest')
        end
      else ([], s)
  | [] => ([], s)
  end.

(** [int(integer)] on the text the integer pattern matched. *)
Definition int_of_literal (integer : str) : Z :=
  let digits := fold_left (fun acc c => 10 * acc + Z.of_N (c - 48)) in
  match integer with
  | c :: rest => if (c =? chr "-")%N then - digits rest 0 else digits integer 0
  | [] => 0
  end.

Definition match_number (s : str) : option (pyval * str) :=
  match match_integer s with
  | None => None
  | Some (integer, s1) =>
      let (frac, s2) := match_frac s1 in
      let (exp, s3) := match_exp s2 in
      match frac ++ exp with
      | [] => Some (PyInt (int_of_literal integer), s3)
      | _ => Some (PyFloat (integer ++ frac ++ exp), s3)
      end
  end.

Section Document.

(** [len(s)] of the document, to report positions. *)
Variable n : Z.

Definition pos (rest : str) : Z := n - len rest.

Definition decode_error {A} (msg : string) (rest : str) : result A :=
  Err (JSONDecodeError (lit msg) (pos rest)).

(** [scanstring], from the character after the opening quote. *)
Fixpoint scanstring (fuel : nat) (begin : Z) (chunks : str) (s : str)
    : result (str * str) :=
  match fuel, s with
  | O, _ | _, [] =>
      Err (JSONDecodeError (lit "Unterminated string starting at") begin)
  | S fuel, c :: rest =>
      if (c =? QUOTE)%N then Ok (chunks, rest)
      else if (c =? BACKSLASH)%N then
        match rest with
        | [] => Err (JSONDecodeError (lit "Unterminated string starting at") begin)
        | esc :: rest1 =>
            if (esc =? chr "u")%N then
              match decode_uXXXX rest1 with
              | None => decode_error "Invalid \uXXXX escape" rest
              | Some (uni, rest2) =>
                  let single := scanstring fuel begin (chunks ++ [uni]) rest2 in
                  if ((55296 <=? uni) && (uni <=? 56319))%N then
                    match strip_prefix [BACKSLASH; chr "u"] rest2 with
                    | None => single
                    | Some rest3 =>
                        match decode_uXXXX rest3 with
                        | None => decode_error "Invalid \uXXXX escape" rest2
                        | Some (uni2, rest4) =>
                            if ((56320 <=? uni2) && (uni2 <=? 57343))%N
                            then
                              let uni' :=
                                (65536 + N.lor (N.shiftl (uni - 55296) 10)
                                               (uni2 - 56320))%N in
                              scanstring fuel begin (chunks ++ [uni']) rest4
                            else single
                        end
                    end
                  else single
              end
            else
              match unescape esc with
              | Some c' => scanstring fuel begin (chunks ++ [c']) rest1
              | None => decode_error "Invalid \escape" rest
              end
        end
      else if (c <? 32)%N then decode_error "Invalid control character at" s
      else scanstring fuel begin (chunks ++ [c]) rest
  end.

Definition RecursionError {A} : result A :=
  Err (LibraryError (lit "maximum recursion depth exceeded")).

(** [scan_once], with the loop of [JSONArray] over the values of an
    array and the loop of [JSONObject] over the members of an object. *)
Fixpoint scan_once (fuel : nat) (s : str) : result (pyval * str) :=
  match fuel with
  | O => RecursionError
  | S fuel =>
      match s with
      | [] => decode_error "Expecting value" s
      | c :: rest =>
          if (c =? QUOTE)%N then
            r <- scanstring (length rest) (pos s) [] rest ;;
            Ok (PyStr (fst r), snd r)
          else if (c =? chr "{")%N then
            match skip_ws rest with
            | c1 :: rest1 =>
                if (c1 =? chr "}")%N then Ok (PyDict [], rest1)
                else if (c1 =? QUOTE)%N then object_members fuel [] rest1
                else decode_error
                       "Expecting property name enclosed in double quotes"
                       (c1 :: rest1)
            | [] => decode_error
                      "Expecting property name enclosed in double quotes" []
            end
          else if (c =? chr "[")%N then
            match skip_ws rest with
            | c1 :: rest1 =>
                if (c1 =? chr "]")%N then Ok (PyList [], rest1)
                else array_items fuel [] (c1 :: rest1)
            | [] => array_items fuel [] []
            end
          else
            match strip_prefix (lit "null") s, strip_prefix (lit "true") s,
                  strip_prefix (lit "false") s with
            | Some rest', _, _ => Ok (PyNone, rest')
            | _, Some rest', _ => Ok (PyBool true, rest')
            | _, _, Some rest' => Ok (PyBool false, rest')
            | None, None, None =>
                match match_number s with
                | Some r => Ok r
                | None =>
                    match strip_prefix (lit "NaN") s,
                          strip_prefix (lit "Infinity") s,
                          strip_prefix (lit "-Infinity") s with
                    | Some rest', _, _ => Ok (PyFloat (lit "NaN"), rest')
                    | _, Some rest', _ => Ok (PyFloat (lit "Infinity"), rest')
                    | _, _, Some rest' => Ok (PyFloat (lit "-Infinity"), rest')
                    | None, None, None => decode_error "Expecting value" s
                    end
                end
            end
      end
  end
with array_items (fuel : nat) (values : list pyval) (s : str)
    : result (pyval * str) :=
  match fuel with
  | O => RecursionError
  | S fuel =>
      r <- scan_once fuel s ;;
      let values := values ++ [fst r] in
      match skip_ws (snd r) with
      | c :: rest =>
          if (c =? chr "]")%N then Ok (PyList values, rest)
          else if (c =? chr ",")%N then array_items fuel values (skip_ws rest)
          else decode_error "Expecting ',' delimiter" (c :: rest)
      | [] => decode_error "Expecting ',' delimiter" []
      end
  end
with object_members (fuel : nat) (pairs : list (str * pyval)) (s : str)
    : result (pyval * str) :=
  match fuel with
  | O => RecursionError
  | S fuel =>
      kr <- scanstring (length s) (pos s - 1) [] s ;;
      match skip_ws (snd kr) with
      | c :: s1 =>
          if (c =? chr ":")%N then
            vr <- scan_once fuel (skip_ws s1) ;;
            let pairs := pairs ++ [(fst kr, fst vr)] in
            match skip_ws (snd vr) with
            | c1 :: rest =>
                if (c1 =? chr "}")%N then Ok (PyDict (dict_of_pairs pairs), rest)
                else if (c1 =? chr ",")%N then
                  match skip_ws rest with
                  | c2 :: s2 =>
                      if (c2 =? QUOTE)%N then object_members fuel pairs s2
                      else decode_error
                             "Expecting property name enclosed in double quotes"
                             (c2 :: s2)
                  | [] => decode_error
                            "Expecting property name enclosed in double quotes" []
                  end
                else decode_error "Expecting ',' delimiter" (c1 :: rest)
            | [] => decode_error "Expecting ',' delimiter" []
            end
          else decode_error "Expecting ':' delimiter" (c :: s1)
      | [] => decode_error "Expecting ':' delimiter" []
      end
  end.

End Document.

(** [json.loads(s)] *)
Definition loads (s : str) : result pyval :=
  match strip_prefix [65279%N] s with
  | Some _ =>
      Err (JSONDecodeError (lit "Unexpected UTF-8 BOM (decode using utf-8-sig)") 0)
  | None =>
      r <- scan_once (len s) (2 * length s + 2) (skip_ws s) ;;
      match skip_ws (snd r) with
      | [] => Ok (fst r)
      | rest => Err (JSONDecodeError (lit "Extra data") (pos (len s) rest))
      end
  end.

End JsonRef.

Definition ref_json : JsonLib := {| json_loads := JsonRef.loads |}.


(** ** A reference langchain

    Persisted indexes on a disk given by path; the stored order of the
    documents of an index is its rank order, and a search returns the
    first [k] of them. It stands in for langchain where a hook is run
    on a concrete model. *)

Module FaissRef.

Record Store : Type := mkStore {
  store_embeddings : BgeArgs;
  store_docs : list Document
}.

Definition load_local (disk : list (str * list Document)) (path : str)
    (embeddings : BgeArgs) : result Store :=
  match dict_get disk path with
  | Some docs => Ok (mkStore embeddings docs)
  | None => Err (LibraryError (lit "could not open the index for reading"))
  end.

Definition search (o : Store) (text k : pyval)
    : result (list Document) * Store :=
  match text, k with
  | PyStr _, PyInt n => (Ok (take (Z.to_nat n) (store_docs o)), o)
  | PyStr _, _ => (Err (TypeError (lit "k is not an integer")), o)
  | _, _ => (Err (TypeError (lit "text is not a string")), o)
  end.

End FaissRef.

Definition ref_langchain (disk : list (str * list Document)) : LangChain := {|
  Embeddings := BgeArgs;
  VectorStore := FaissRef.Store;
  HuggingFaceBgeEmbeddings := fun args => Ok args;
  FAISS_load_local := FaissRef.load_local disk;
  embedding_function := FaissRef.store_embeddings;
  similarity_search := FaissRef.search
|}.


(** ** A reference process

    A disk with one persisted index of three passages under the model
    directory of a SageMaker container, the process [model_fn] leaves
    behind on it, and request bodies for it. *)

(** A JSON text of the source written with apostrophes for its quotes. *)
Definition json_lit (s : string) : str :=
  (fun c => if (c =? 39)%N then 34%N else c) <$> lit s.
Global Arguments json_lit s%_string.

Definition doc_a : Document :=
  mkDocument (lit "alpha passage") [(lit "source", PyStr (lit "a.txt"))].
Definition doc_b : Document :=
  mkDocument (lit "beta passage")
             [(lit "source", PyStr (lit "b.txt")); (lit "page", PyInt 3)].
Definition doc_c : Document :=
  mkDocument (lit "gamma passage") [].

Definition ref_disk : list (str * list Document) :=
  [(lit "/opt/ml/model/faiss_vector_store", [doc_a; doc_b; doc_c])].

Definition ref_lc : LangChain := ref_langchain ref_disk.

(** The process before [model_fn]. *)
Definition ref_start : @World ref_lc := @mkWorld ref_lc ∅ [].

(** The process after [model_fn], and the handle it returned. *)
Definition ref_world : @World ref_lc :=
  snd (@model_fn ref_lc (lit "/opt/ml/model") ref_start).
Definition ref_model : loc := 1%positive.

Definition ref_query : str := json_lit "{'text': 'example query', 'k': 2}".
Definition ref_query_no_k : str := json_lit "{'text': 'example query'}".
Definition ref_query_bad_k : str := json_lit "{'text': 'example query', 'k': 'two'}".
Definition ref_malformed : str := lit "{text:".

(** What the reference [json.loads] makes of these bodies. *)
Definition ref_input : pyval :=
  PyDict [(lit "text", PyStr (lit "example query")); (lit "k", PyInt 2)].
Definition ref_input_no_k : pyval :=
  PyDict [(lit "text", PyStr (lit "example query"))].
Definition ref_input_bad_k : pyval :=
  PyDict [(lit "text", PyStr (lit "example query")); (lit "k", PyStr (lit "two"))].
Definition ref_parse_error : exn :=
  JSONDecodeError (lit "Expecting property name enclosed in double quotes") 1.

(** The store object of the reference process. *)
Definition ref_store : FaissRef.Store :=
  FaissRef.mkStore bge_args [doc_a; doc_b; doc_c].

Definition ref_request (request_body : str) : Request :=
  mkRequest request_body (lit "application/json") (lit "application/json").

(** ** Reading the output back

    What is needed to state that the reference [json.loads] reads the
    text of [output_fn] back. *)

(** A code point of a well-formed text: a Unicode scalar value (no
    surrogate, at most 0x10FFFF). *)
Definition is_scalar (c : N) : Prop := (c < 55296 \/ 57343 < c < 1114112)%N.

(** The text of an object after its first member: the members that
    follow, each after a separator, and the closing brace. *)
Fixpoint members_tail (members : list (str * item)) : str :=
  match members with
  | [] => lit "}"
  | m :: rest => lit ", " ++ Json.member_text m ++ members_tail rest
  end.

(** A member with a string value, as [json.dumps] receives it and as
    [json.loads] returns it. *)
Definition str_member (kv : str * str) : str * item := (kv.1, StrItem kv.2).
Definition py_member (kv : str * str) : str * pyval := (kv.1, PyStr kv.2).

(** What the loop of [JsonRef.object_members] does after the value of
    a member. *)
Definition member_end (n : Z) (fuel : nat) (pairs : list (str * pyval))
    (tail : str) : result (pyval * str) :=
  match JsonRef.skip_ws tail with
  | c1 :: rest =>
      if (c1 =? JsonRef.chr "}")%N then Ok (PyDict (dict_of_pairs pairs), rest)
      else if (c1 =? JsonRef.chr ",")%N then
        match JsonRef.skip_ws rest with
        | c2 :: s2 =>
            if (c2 =? JsonRef.QUOTE)%N then JsonRef.object_members n fuel pairs s2
            else JsonRef.decode_error n
                   "Expecting property name enclosed in double quotes"
                   (c2 :: s2)
        | [] => JsonRef.decode_error n
                  "Expecting property name enclosed in double quotes" []
        end
      else JsonRef.decode_error n "Expecting ',' delimiter" (c1 :: rest)
  | [] => JsonRef.decode_error n "Expecting ',' delimiter" []
  end.


(** ** More names for the statements *)

(** A printable ASCII character, from the space to the tilde. *)
Definition printable (c : N) : Prop := (32 <= c <= 126)%N.

(** Whether a value [json.loads] returns is a [dict]. *)
Definition is_dict (v : pyval) : bool :=
  match v with PyDict _ => true | _ => false end.

(** The query of the reference process with one more field. *)
Definition ref_input_extra : pyval :=
  PyDict [(lit "text", PyStr (lit "example query")); (lit "k", PyInt 2);
          (lit "filter", PyStr (lit "source"))].

(** The first two passages of the reference process without their
    metadata. *)
Definition bare_a : Document := mkDocument (lit "alpha passage") [].
Definition bare_b : Document := mkDocument (lit "beta passage") [].

(** ** Valid JSON

    The grammar of RFC 8259 on a text of code points: what it is for a
    request body to be valid JSON, whatever a decoder accepts. White
    space may surround every value and every structural character. *)

Module Rfc8259.

Definition ws (s : str) : Prop :=
  Forall (fun c => c = 32 \/ c = 9 \/ c = 10 \/ c = 13)%N s.

Definition digit (c : N) : Prop := (48 <= c <= 57)%N.

Definition hexdig (c : N) : Prop :=
  (48 <= c <= 57 \/ 65 <= c <= 70 \/ 97 <= c <= 102)%N.

Inductive int_part : str -> Prop :=
| int_zero : int_part [48%N]
| int_digits c ds : (49 <= c <= 57)%N -> Forall digit ds -> int_part (c :: ds).

Inductive frac_part : str -> Prop :=
| frac_none : frac_part []
| frac_digits d ds : digit d -> Forall digit ds -> frac_part (46%N :: d :: ds).

Inductive exp_part : str -> Prop :=
| exp_none : exp_part []
| exp_digits e sign d ds :
    (e = 101 \/ e = 69)%N ->
    sign = [] \/ sign = [45%N] \/ sign = [43%N] ->
    digit d -> Forall digit ds -> exp_part (e :: sign ++ d :: ds).

Inductive number : str -> Prop :=
| number_parts minus i f e :
    minus = [] \/ minus = [45%N] ->
    int_part i -> frac_part f -> exp_part e -> number (minus ++ i ++ f ++ e).

Inductive char : str -> Prop :=
| char_unescaped c :
    (32 <= c <= 1114111)%N -> c <> 34%N -> c <> 92%N -> char [c]
| char_escape c :
    In c [34; 92; 47; 98; 102; 110; 114; 116]%N -> char [92%N; c]
| char_u a b c d :
    hexdig a -> hexdig b -> hexdig c -> hexdig d ->
    char [92; 117; a; b; c; d]%N.

Inductive chars : str -> Prop :=
| chars_nil : chars []
| chars_cons c s : char c -> chars s -> chars (c ++ s).

Inductive json_string : str -> Prop :=
| string_quoted s : chars s -> json_string (34%N :: s ++ [34%N]).

Inductive value : str -> Prop :=
| value_false : value (lit "false")
| value_null : value (lit "null")
| value_true : value (lit "true")
| value_number s : number s -> value s
| value_string s : json_string s -> value s
| value_array_empty w : ws w -> value (91%N :: w ++ [93%N])
| value_array es : elements es -> value (91%N :: es ++ [93%N])
| value_object_empty w : ws w -> value (123%N :: w ++ [125%N])
| value_object ms : members ms -> value (123%N :: ms ++ [125%N])
with elements : str -> Prop :=
| elements_one w1 v w2 :
    ws w1 -> value v -> ws w2 -> elements (w1 ++ v ++ w2)
| elements_more w1 v w2 es :
    ws w1 -> value v -> ws w2 -> elements es ->
    elements (w1 ++ v ++ w2 ++ 44%N :: es)
with members : str -> Prop :=
| members_one w1 k w2 w3 v w4 :
    ws w1 -> json_string k -> ws w2 -> ws w3 -> value v -> ws w4 ->
    members (w1 ++ k ++ w2 ++ 58%N :: w3 ++ v ++ w4)
| members_more w1 k w2 w3 v w4 ms :
    ws w1 -> json_string k -> ws w2 -> ws w3 -> value v -> ws w4 ->
    members ms ->
    members (w1 ++ k ++ w2 ++ 58%N :: w3 ++ v ++ w4 ++ 44%N :: ms).

Definition json_text (s : str) : Prop :=
  exists w1 v w2, ws w1 /\ value v /\ ws w2 /\ s = w1 ++ v ++ w2.

End Rfc8259.

(** ** A langchain whose search writes

    A store whose search consumes what it returns: the records handed
    out leave the index. No FAISS store is known to behave so; it is
    what the hooks themselves do nothing to prevent. *)

Module FaissPop.

Definition search (o : FaissRef.Store) (text k : pyval)
    : result (list Document) * FaissRef.Store :=
  match text, k with
  | PyStr _, PyInt n =>
      (Ok (take (Z.to_nat n) (FaissRef.store_docs o)),
       FaissRef.mkStore (FaissRef.store_embeddings o)
         (drop (Z.to_nat n) (FaissRef.store_docs o)))
  | PyStr _, _ => (Err (TypeError (lit "k is not an integer")), o)
  | _, _ => (Err (TypeError (lit "text is not a string")), o)
  end.

End FaissPop.




(** * Properties *)

(** ** Python lists and dictionaries *)

Section PyFacts.

Lemma len_range n : 0 <= n -> len (range n) = n.
Proof. intros Hn. unfold len, range. rewrite length_seqZ. lia. Qed.

Lemma range_len_length {A} (l : list A) : length (range (len l)) = length l.
Proof. unfold range, len. rewrite length_seqZ. lia. Qed.

Lemma list_getitem_lookup {A} (l : list A) (i : nat) (x : A) :
  l !! i = Some x -> list_getitem l (Z.of_nat i) = Ok x.
Proof.
  intros Hx. pose proof (lookup_lt_Some _ _ _ Hx) as Hlt.
  unfold list_getitem, len.
  destruct (Z.ltb_spec (Z.of_nat i) 0) as [Hneg|_]; [lia|].
  destruct (Z.ltb_spec (Z.of_nat i) 0) as [Hneg|_]; [lia|].
  destruct (Z.leb_spec (Z.of_nat (length l)) (Z.of_nat i)) as [Hge|_]; [lia|].
  simpl. rewrite Nat2Z.id, Hx. reflexivity.
Qed.

Lemma dict_setitem_fresh {K V} `{EqDecision K} (d : list (K * V)) k v :
  k ∉ dict_keys d -> dict_setitem d k v = d ++ [(k, v)].
Proof.
  induction d as [|[k' v'] d IH]; simpl; intros Hk; [reflexivity|].
  apply not_elem_of_cons in Hk as [Hne Hk].
  destruct (decide (k' = k)) as [->|_]; [congruence|].
  rewrite IH by exact Hk. reflexivity.
Qed.

Lemma dict_setitem_present {K V} `{EqDecision K} (d1 d2 : list (K * V)) k v v' :
  k ∉ dict_keys d1 ->
  dict_setitem (d1 ++ (k, v) :: d2) k v' = d1 ++ (k, v') :: d2.
Proof.
  induction d1 as [|[k1 v1] d1 IH]; simpl; intros Hk.
  - destruct (decide (k = k)); [reflexivity|congruence].
  - apply not_elem_of_cons in Hk as [Hne Hk].
    destruct (decide (k1 = k)) as [->|_]; [congruence|].
    rewrite IH by exact Hk. reflexivity.
Qed.

Lemma dict_keys_setitem_present {K V} `{EqDecision K} (d : list (K * V)) k v :
  k ∈ dict_keys d -> dict_keys (dict_setitem d k v) = dict_keys d.
Proof.
  induction d as [|[k' v'] d IH]; simpl; intros Hk.
  - apply elem_of_nil in Hk. contradiction.
  - destruct (decide (k' = k)) as [->|Hne]; [reflexivity|].
    simpl. f_equal. apply IH.
    apply elem_of_cons in Hk as [->|Hk]; [congruence|exact Hk].
Qed.

Lemma fold_setitem_fresh {K V} `{EqDecision K} (pairs acc : list (K * V)) :
  NoDup (dict_keys (acc ++ pairs)) ->
  fold_left (fun d kv => dict_setitem d (fst kv) (snd kv)) pairs acc
  = acc ++ pairs.
Proof.
  revert acc. induction pairs as [|[k v] pairs IH]; intros acc Hnd; simpl.
  - rewrite app_nil_r. reflexivity.
  - rewrite dict_setitem_fresh.
    + rewrite IH; rewrite <- app_assoc; [reflexivity|exact Hnd].
    + unfold dict_keys in *. rewrite fmap_app in Hnd.
      apply NoDup_app in Hnd as (_ & Hdisj & _).
      intros Hin. apply (Hdisj k Hin). simpl. left.
Qed.

Lemma dict_of_pairs_fresh {K V} `{EqDecision K} (pairs : list (K * V)) :
  NoDup (dict_keys pairs) -> dict_of_pairs pairs = pairs.
Proof. intros Hnd. unfold dict_of_pairs. rewrite fold_setitem_fresh; auto. Qed.

End PyFacts.

(** ** [output_fn] *)

Section OutputFacts.

Lemma dict_keys_zip (ks : list Z) (vs : list item) :
  length ks = length vs -> dict_keys (zip ks vs) = ks.
Proof. intros Hlen. unfold dict_keys. apply fst_zip. lia. Qed.

Lemma initial_dict_eq predictions :
  initial_dict predictions
  = zip (range (len predictions)) (IntItem <$> range (len predictions)).
Proof.
  unfold initial_dict. apply dict_of_pairs_fresh.
  rewrite dict_keys_zip by (rewrite length_fmap; reflexivity).
  apply NoDup_seqZ.
Qed.

(** Every index of the loop reads the record of its own rank. *)
Lemma getitem_range (predictions : list Document) :
  Forall2 (fun ind p => list_getitem predictions ind = Ok p)
          (range (len predictions)) predictions.
Proof.
  apply Forall2_same_length_lookup. split.
  - apply range_len_length.
  - intros i ind p Hind Hp. unfold range in Hind.
    apply lookup_seqZ in Hind as [-> _]. simpl.
    apply list_getitem_lookup. exact Hp.
Qed.

(** The loop, from any point on: the cells of the keys still to visit
    are overwritten in place, the cells before them are left alone. *)
Lemma output_loop_zip predictions (inds : list Z) :
  forall (seen : dict) (vs : list item) (docs : list Document),
    length inds = length vs ->
    Forall2 (fun ind p => list_getitem predictions ind = Ok p) inds docs ->
    NoDup (dict_keys seen ++ inds) ->
    output_loop predictions inds (seen ++ zip inds vs)
    = Ok (seen ++ zip inds (payloads docs)).
Proof.
  induction inds as [|ind inds IH]; intros seen vs docs Hlen Hget Hnd.
  - apply Forall2_nil_inv_l in Hget as ->. reflexivity.
  - apply Forall2_cons_inv_l in Hget as (p & docs' & Hp & Hget & ->).
    destruct vs as [|v vs]; [discriminate|]. simpl in Hlen.
    simpl. rewrite Hp. simpl.
    rewrite dict_setitem_present.
    + change (seen ++ (ind, StrItem (page_content p)) :: zip inds vs)
        with (seen ++ [(ind, StrItem (page_content p))] ++ zip inds vs).
      rewrite app_assoc, (IH _ vs docs'); [| lia | exact Hget |].
      * rewrite <- app_assoc. reflexivity.
      * unfold dict_keys. rewrite fmap_app, <- app_assoc. exact Hnd.
    + apply NoDup_app in Hnd as (_ & Hdisj & _).
      intros Hin. apply (Hdisj ind Hin). left.
Qed.

Lemma output_dict_eq predictions :
  output_dict predictions
  = Ok (zip (range (len predictions)) (payloads predictions)).
Proof.
  unfold output_dict.
  rewrite initial_dict_eq.
  apply (output_loop_zip predictions _ [] _ predictions).
  - rewrite length_fmap. reflexivity.
  - apply getitem_range.
  - apply NoDup_seqZ.
Qed.

Lemma lit_inj s1 s2 : lit s1 = lit s2 -> s1 = s2.
Proof.
  unfold lit. intros Heq.
  rewrite <- (string_of_list_ascii_of_string s1),
          <- (string_of_list_ascii_of_string s2).
  f_equal. revert Heq.
  generalize (list_ascii_of_string s1) (list_ascii_of_string s2).
  induction l as [|a l IH]; intros [|b l'] Heq; try discriminate; [reflexivity|].
  injection Heq as Hab Hl. f_equal; [|apply IH; exact Hl].
  rewrite <- (ascii_N_embedding a), <- (ascii_N_embedding b), Hab. reflexivity.
Qed.

Lemma to_int_not_nil n : Z.to_int n <> Decimal.Pos Decimal.Nil /\
                         Z.to_int n <> Decimal.Neg Decimal.Nil.
Proof.
  destruct n as [|p|p]; simpl; split; try discriminate;
    intros Heq; injection Heq as Heq;
    exact (DecimalPos.Unsigned.to_uint_nonnil p Heq).
Qed.

(** Two [int]s with the same [repr] are the same [int]. *)
Lemma int_repr_inj a b : int_repr a = int_repr b -> a = b.
Proof.
  unfold int_repr. intros Heq. apply lit_inj in Heq.
  apply (f_equal NilZero.int_of_string) in Heq.
  destruct (to_int_not_nil a) as [Ha1 Ha2], (to_int_not_nil b) as [Hb1 Hb2].
  rewrite !NilZero.isi in Heq by assumption.
  injection Heq as Heq. apply DecimalZ.to_int_inj. exact Heq.
Qed.

End OutputFacts.

Section OutputLoop.

(** The loop never adds a key: as long as every index it visits is a
    key of the dictionary and an index of the list, it ends normally
    on a dictionary with the same keys in the same order. *)
Lemma output_loop_keys predictions (inds : list Z) :
  forall d : dict,
    Forall (fun ind => ind ∈ dict_keys d /\
                       is_ok (list_getitem predictions ind) = true) inds ->
    exists d', output_loop predictions inds d = Ok d' /\
               dict_keys d' = dict_keys d.
Proof.
  induction inds as [|ind inds IH]; intros d Hall.
  - exists d. split; reflexivity.
  - apply Forall_cons in Hall as [[Hkey Hget] Hall]. simpl.
    destruct (list_getitem predictions ind) as [p|e]; [|discriminate]. simpl.
    destruct (IH (dict_setitem d ind (StrItem (page_content p)))) as (d' & Hd' & Hk).
    + rewrite dict_keys_setitem_present by exact Hkey. exact Hall.
    + exists d'. split; [exact Hd'|].
      rewrite Hk. apply dict_keys_setitem_present. exact Hkey.
Qed.

Lemma initial_dict_keys predictions :
  dict_keys (initial_dict predictions) = range (len predictions).
Proof.
  rewrite initial_dict_eq. apply dict_keys_zip.
  rewrite length_fmap. reflexivity.
Qed.

Lemma range_in_bounds (predictions : list Document) :
  Forall (fun ind => 0 <= ind < len predictions /\
                     is_ok (list_getitem predictions ind) = true)
         (range (len predictions)).
Proof.
  apply Forall_lookup. intros i ind Hind.
  pose proof (getitem_range predictions) as Hget.
  destruct (Forall2_lookup_l _ _ _ _ _ Hget Hind) as (p & _ & Hp).
  rewrite Hp. unfold range in Hind. apply lookup_seqZ in Hind. split; [lia|reflexivity].
Qed.

Lemma payloads_page_content (ps qs : list Document) :
  page_content <$> ps = page_content <$> qs -> payloads ps = payloads qs.
Proof.
  intros Heq. unfold payloads.
  change (fun p => StrItem (page_content p)) with (StrItem ∘ page_content).
  rewrite !(list_fmap_compose page_content StrItem), Heq. reflexivity.
Qed.

Lemma output_fn_eq predictions content_type :
  output_fn predictions content_type
  = Ok (Json.object_text
          (zip (int_repr <$> range (len predictions)) (payloads predictions))).
Proof.
  unfold output_fn. rewrite output_dict_eq. simpl. f_equal.
  unfold Json.dumps, Json.members_of. f_equal.
  generalize (range (len predictions)) (payloads predictions).
  induction l as [|k ks IH]; intros [|v vs]; simpl; try reflexivity.
  f_equal. apply IH.
Qed.

End OutputLoop.

(** ** The reference [json.loads] on the text of [json.dumps] *)

Section ReadBack.

Import JsonRef.
Local Open Scope N_scope.
Local Ltac Zify.zify_post_hook ::= Z.to_euclidean_division_equations.

Lemma hex_value_digit d : d < 16 -> JsonRef.hex_value (Json.hex_digit d) = Some d.
Proof.
  intros Hd. destruct d as [|p]; [reflexivity|].
  do 4 (destruct p as [p|p|]; try reflexivity); lia.
Qed.

Lemma nibbles c :
  c < 65536 ->
  ((N.shiftr c 12 mod 16 * 16 + N.shiftr c 8 mod 16) * 16
     + N.shiftr c 4 mod 16) * 16 + c mod 16 = c.
Proof.
  intros Hc. rewrite !N.shiftr_div_pow2.
  change (2 ^ 12) with 4096. change (2 ^ 8) with 256. change (2 ^ 4) with 16.
  lia.
Qed.

Lemma mod16_lt a : a mod 16 < 16.
Proof. lia. Qed.

Lemma decode_u_escape c rest :
  c < 65536 ->
  exists h, Json.u_escape c = [92; 117] ++ h /\
            JsonRef.decode_uXXXX (h ++ rest) = Some (c, rest).
Proof.
  intros Hc. eexists. split; [reflexivity|]. simpl.
  rewrite !hex_value_digit by apply mod16_lt.
  rewrite nibbles by exact Hc. reflexivity.
Qed.

Lemma lor_disjoint a x : N.land a 1023 = 0 -> x < 1024 -> N.lor a x = a + x.
Proof.
  intros Ha Hx.
  assert (Hland : N.land a x = 0).
  { replace x with (N.land x 1023).
    - rewrite (N.land_comm x), N.land_assoc, Ha. reflexivity.
    - change 1023 with (N.ones 10). rewrite N.land_ones.
      apply N.mod_small. exact Hx. }
  rewrite <- N.lxor_lor by exact Hland.
  symmetry. apply N.add_nocarry_lxor. exact Hland.
Qed.

Lemma land_1023 a : N.land a 1023 = a mod 1024.
Proof. change 1023 with (N.ones 10). apply N.land_ones. Qed.

Lemma surrogates c :
  65536 <= c < 1114112 ->
  let n := c - 65536 in
  let hi := N.lor 55296 (N.land (N.shiftr n 10) 1023) in
  let lo := N.lor 56320 (N.land n 1023) in
  (55296 <= hi <= 56319) /\ (56320 <= lo <= 57343) /\
  65536 + N.lor (N.shiftl (hi - 55296) 10) (lo - 56320) = c.
Proof.
  intros Hc n hi lo.
  assert (Hhi : hi = 55296 + n / 1024).
  { unfold hi. rewrite land_1023, N.shiftr_div_pow2.
    change (2 ^ 10) with 1024.
    rewrite lor_disjoint; [|reflexivity|lia].
    rewrite N.mod_small; [reflexivity|]. unfold n. lia. }
  assert (Hlo : lo = 56320 + n mod 1024).
  { unfold lo. rewrite land_1023. apply lor_disjoint; [reflexivity|lia]. }
  rewrite Hhi, Hlo.
  split; [unfold n; lia|]. split; [lia|].
  replace (55296 + n / 1024 - 55296) with (n / 1024) by lia.
  replace (56320 + n mod 1024 - 56320) with (n mod 1024) by lia.
  rewrite N.shiftl_mul_pow2. change (2 ^ 10) with 1024.
  rewrite lor_disjoint; [unfold n; lia| |lia].
  rewrite land_1023. apply N.Div0.mod_mul.
Qed.

Section Scanstring.

Variable n : Z.

Lemma scanstring_S fuel begin chunks c rest :
  scanstring n (S fuel) begin chunks (c :: rest) =
      if (c =? QUOTE)%N then Ok (chunks, rest)
      else if (c =? BACKSLASH)%N then
        match rest with
        | [] => Err (JSONDecodeError (lit "Unterminated string starting at") begin)
        | esc :: rest1 =>
            if (esc =? chr "u")%N then
              match decode_uXXXX rest1 with
              | None => decode_error n "Invalid \uXXXX escape" rest
              | Some (uni, rest2) =>
                  let single := scanstring n fuel begin (chunks ++ [uni]) rest2 in
                  if ((55296 <=? uni) && (uni <=? 56319))%N then
                    match strip_prefix [BACKSLASH; chr "u"] rest2 with
                    | None => single
                    | Some rest3 =>
                        match decode_uXXXX rest3 with
                        | None => decode_error n "Invalid \uXXXX escape" rest2
                        | Some (uni2, rest4) =>
                            if ((56320 <=? uni2) && (uni2 <=? 57343))%N
                            then
                              let uni' :=
                                (65536 + N.lor (N.shiftl (uni - 55296) 10)
                                               (uni2 - 56320))%N in
                              scanstring n fuel begin (chunks ++ [uni']) rest4
                            else single
                        end
                    end
                  else single
              end
            else
              match unescape esc with
              | Some c' => scanstring n fuel begin (chunks ++ [c']) rest1
              | None => decode_error n "Invalid \escape" rest
              end
        end
      else if (c <? 32)%N then decode_error n "Invalid control character at" (c :: rest)
      else scanstring n fuel begin (chunks ++ [c]) rest.
Proof. reflexivity. Qed.

Lemma scanstring_u fuel begin chunks c tail :
  c < 65536 -> ~ (55296 <= c <= 56319) ->
  scanstring n (S fuel) begin chunks (Json.u_escape c ++ tail)
  = scanstring n fuel begin (chunks ++ [c]) tail.
Proof.
  intros Hc Hns. destruct (decode_u_escape c tail Hc) as (h & -> & Hdec).
  simpl app. rewrite scanstring_S. simpl N.eqb. cbv iota.
  change (chr "u" =? chr "u") with true. cbv iota.
  rewrite Hdec. cbv zeta.
  destruct (N.leb_spec 55296 c), (N.leb_spec c 56319); simpl; try reflexivity.
  lia.
Qed.

Lemma scanstring_pair fuel begin chunks c tail :
  65536 <= c < 1114112 ->
  let m := c - 65536 in
  scanstring n (S fuel) begin chunks
    (Json.u_escape (N.lor 55296 (N.land (N.shiftr m 10) 1023)) ++
     Json.u_escape (N.lor 56320 (N.land m 1023)) ++ tail)
  = scanstring n fuel begin (chunks ++ [c]) tail.
Proof.
  intros Hc m. destruct (surrogates c Hc) as (Hhi & Hlo & Hc').
  fold m in Hhi, Hlo, Hc'.
  set (hi := N.lor 55296 (N.land (N.shiftr m 10) 1023)) in *.
  set (lo := N.lor 56320 (N.land m 1023)) in *.
  destruct (decode_u_escape lo tail) as (h2 & Hlo_eq & Hdec2); [lia|].
  destruct (decode_u_escape hi (Json.u_escape lo ++ tail)) as (h1 & Hhi_eq & Hdec1); [lia|].
  rewrite Hhi_eq, Hlo_eq. rewrite Hlo_eq in Hdec1.
  simpl app in *. rewrite scanstring_S. simpl N.eqb. cbv iota.
  change (chr "u" =? chr "u") with true. cbv iota.
  rewrite Hdec1. cbv zeta.
  destruct (N.leb_spec 55296 hi); [|lia]. destruct (N.leb_spec hi 56319); [|lia].
  simpl andb. cbv iota. simpl strip_prefix. cbv iota.
  rewrite Hdec2.
  destruct (N.leb_spec 56320 lo); [|lia]. destruct (N.leb_spec lo 57343); [|lia].
  simpl andb. cbv iota. rewrite Hc'. reflexivity.
Qed.

Lemma scanstring_escape_char fuel begin chunks c tail :
  is_scalar c ->
  scanstring n (S fuel) begin chunks (Json.escape_char c ++ tail)
  = scanstring n fuel begin (chunks ++ [c]) tail.
Proof.
  intros Hs. unfold Json.escape_char.
  destruct (N.eqb_spec c 34) as [->|H34]; [reflexivity|].
  destruct (N.eqb_spec c 92) as [->|H92]; [reflexivity|].
  destruct (N.eqb_spec c 10) as [->|H10]; [reflexivity|].
  destruct (N.eqb_spec c 13) as [->|H13]; [reflexivity|].
  destruct (N.eqb_spec c 9) as [->|H9]; [reflexivity|].
  destruct (N.eqb_spec c 12) as [->|H12]; [reflexivity|].
  destruct (N.eqb_spec c 8) as [->|H8]; [reflexivity|].
  destruct (N.leb_spec 32 c) as [Hlo|Hlo]; simpl andb; cbv iota.
  - destruct (N.leb_spec c 126) as [Hhi|Hhi].
    + simpl app. rewrite scanstring_S. unfold QUOTE, BACKSLASH.
      rewrite (proj2 (N.eqb_neq c 34) H34), (proj2 (N.eqb_neq c 92) H92).
      destruct (N.ltb_spec c 32); [lia|reflexivity].
    + destruct (N.ltb_spec c 65536) as [Hb|Hb].
      * apply scanstring_u; [exact Hb|]. destruct Hs; lia.
      * rewrite <- app_assoc. apply scanstring_pair. destruct Hs; lia.
  - destruct (N.ltb_spec c 65536) as [Hb|Hb]; [|lia].
    apply scanstring_u; [exact Hb|lia].
Qed.

Lemma scanstring_encoded s :
  Forall is_scalar s ->
  forall fuel begin chunks tail,
    (length s < fuel)%nat ->
    scanstring n fuel begin chunks (concat (map Json.escape_char s) ++ QUOTE :: tail)
    = Ok (chunks ++ s, tail).
Proof.
  induction 1 as [|c s Hc Hs IH]; intros fuel begin chunks tail Hfuel.
  - destruct fuel as [|fuel]; [simpl in Hfuel; lia|].
    simpl. rewrite app_nil_r. reflexivity.
  - destruct fuel as [|fuel]; [simpl in Hfuel; lia|].
    simpl concat. rewrite <- app_assoc.
    rewrite scanstring_escape_char by exact Hc.
    rewrite IH by (simpl in Hfuel; lia).
    rewrite <- app_assoc. reflexivity.
Qed.

End Scanstring.

Section ObjectMembers.

Variable n : Z.

Lemma escape_char_length c : (1 <= length (Json.escape_char c))%nat.
Proof.
  unfold Json.escape_char.
  repeat match goal with |- context [if ?b then _ else _] => destruct b end;
    rewrite ?length_app; simpl; lia.
Qed.

Lemma concat_escape_length s :
  (length s <= length (concat (map Json.escape_char s)))%nat.
Proof.
  induction s as [|c s IH]; simpl; [lia|].
  rewrite length_app. pose proof (escape_char_length c). lia.
Qed.

Lemma scan_once_quote fuel rest :
  scan_once n (S fuel) (QUOTE :: rest)
  = (r <- scanstring n (length rest) (pos n (QUOTE :: rest)) [] rest ;;
     Ok (PyStr r.1, r.2)).
Proof. reflexivity. Qed.

Lemma scan_once_string fuel s tail :
  Forall is_scalar s ->
  scan_once n (S fuel) (Json.encode_basestring_ascii s ++ tail)
  = Ok (PyStr s, tail).
Proof.
  intros Hs. unfold Json.encode_basestring_ascii.
  change ([34] ++ concat (map Json.escape_char s) ++ [34])
    with (QUOTE :: (concat (map Json.escape_char s) ++ [QUOTE])).
  rewrite <- app_comm_cons, <- app_assoc. simpl ([QUOTE] ++ tail).
  rewrite scan_once_quote, scanstring_encoded; [reflexivity|exact Hs|].
  rewrite length_app. simpl. pose proof (concat_escape_length s). lia.
Qed.

Lemma object_members_S fuel pairs s :
  object_members n (S fuel) pairs s =
      (kr <- scanstring n (length s) (pos n s - 1) [] s ;;
      match skip_ws (snd kr) with
      | c :: s1 =>
          if (c =? chr ":")%N then
            vr <- scan_once n fuel (skip_ws s1) ;;
            let pairs := pairs ++ [(fst kr, fst vr)] in
            match skip_ws (snd vr) with
            | c1 :: rest =>
                if (c1 =? chr "}")%N then Ok (PyDict (dict_of_pairs pairs), rest)
                else if (c1 =? chr ",")%N then
                  match skip_ws rest with
                  | c2 :: s2 =>
                      if (c2 =? QUOTE)%N then object_members n fuel pairs s2
                      else decode_error n
                             "Expecting property name enclosed in double quotes"
                             (c2 :: s2)
                  | [] => decode_error n
                            "Expecting property name enclosed in double quotes" []
                  end
                else decode_error n "Expecting ',' delimiter" (c1 :: rest)
            | [] => decode_error n "Expecting ',' delimiter" []
            end
          else decode_error n "Expecting ':' delimiter" (c :: s1)
      | [] => decode_error n "Expecting ':' delimiter" []
      end).
Proof. reflexivity. Qed.

(** The text of a member from after the opening quote of its key. *)
Lemma member_text_quote k v :
  Json.member_text (k, StrItem v)
  = QUOTE :: concat (map Json.escape_char k) ++ QUOTE :: lit ": "
      ++ Json.encode_basestring_ascii v.
Proof.
  unfold Json.member_text, Json.encode_basestring_ascii. simpl.
  rewrite <- !app_assoc. reflexivity.
Qed.

Lemma skip_ws_keep c s : is_ws c = false -> skip_ws (c :: s) = c :: s.
Proof. intros Hc. simpl. rewrite Hc. reflexivity. Qed.

Lemma skip_ws_encoded v tail :
  skip_ws (32 :: Json.encode_basestring_ascii v ++ tail)
  = Json.encode_basestring_ascii v ++ tail.
Proof. reflexivity. Qed.

Lemma member_end_brace fuel pairs tail :
  member_end n fuel pairs (lit "}" ++ tail)
  = Ok (PyDict (dict_of_pairs pairs), tail).
Proof. reflexivity. Qed.

Lemma member_end_comma fuel pairs s :
  member_end n fuel pairs (lit ", " ++ QUOTE :: s)
  = object_members n fuel pairs s.
Proof. reflexivity. Qed.

Lemma object_members_member k v pairs fuel tail :
  Forall is_scalar k -> Forall is_scalar v ->
  object_members n (S (S fuel)) pairs
    (concat (map Json.escape_char k) ++ QUOTE :: lit ": "
       ++ Json.encode_basestring_ascii v ++ tail)
  = member_end n (S fuel) (pairs ++ [(k, PyStr v)]) tail.
Proof.
  intros Hk Hv.
  rewrite object_members_S, scanstring_encoded; [|exact Hk|].
  - cbn [Py.bind fst snd app].
    change (lit ": " ++ Json.encode_basestring_ascii v ++ tail)
      with (58 :: 32 :: Json.encode_basestring_ascii v ++ tail).
    rewrite skip_ws_keep by reflexivity. cbv beta iota.
    change (58 =? chr ":") with true. cbv beta iota.
    rewrite skip_ws_encoded, scan_once_string by exact Hv.
    reflexivity.
  - rewrite length_app. pose proof (concat_escape_length k). simpl. lia.
Qed.

Lemma object_members_tail (kvs : list (str * str)) :
  Forall (fun kv => Forall is_scalar kv.1 /\ Forall is_scalar kv.2) kvs ->
  forall k v pairs fuel tail,
    Forall is_scalar k -> Forall is_scalar v ->
    (length kvs + 2 <= fuel)%nat ->
    object_members n fuel pairs
      (concat (map Json.escape_char k) ++ QUOTE :: lit ": "
         ++ Json.encode_basestring_ascii v
         ++ members_tail (str_member <$> kvs) ++ tail)
    = Ok (PyDict (dict_of_pairs (pairs ++ (k, PyStr v) :: (py_member <$> kvs))),
          tail).
Proof.
  induction 1 as [|[k' v'] kvs [Hk' Hv'] Hkvs IH];
    intros k v pairs fuel tail Hk Hv Hfuel;
    (destruct fuel as [|[|fuel]]; [simpl in Hfuel; lia..|]);
    rewrite object_members_member by assumption.
  - apply member_end_brace.
  - cbn [fmap list_fmap members_tail]. unfold str_member at 1. cbn [fst snd].
    rewrite member_text_quote, <- !app_assoc.
    rewrite <- !app_comm_cons, member_end_comma.
    rewrite <- app_assoc.
    rewrite (IH k' v' _ (S fuel) tail Hk' Hv') by (simpl in Hfuel; lia).
    rewrite <- app_assoc. reflexivity.
Qed.

End ObjectMembers.

Section ParseBack.

Lemma members_tail_join (m : str * item) (members : list (str * item)) :
  Json.join (lit ", ") (Json.member_text <$> (m :: members)) ++ lit "}"
  = Json.member_text m ++ members_tail members.
Proof.
  revert m. induction members as [|m' members IH]; intros m.
  - reflexivity.
  - change (Json.join (lit ", ") (Json.member_text <$> m :: m' :: members))
      with (Json.member_text m ++ lit ", "
              ++ Json.join (lit ", ") (Json.member_text <$> m' :: members)).
    rewrite <- !app_assoc, IH. cbn [members_tail].
    rewrite <- ?app_assoc. reflexivity.
Qed.

Lemma members_tail_length members :
  (length members < length (members_tail members))%nat.
Proof.
  induction members as [|m members IH]; simpl; [lia|].
  rewrite length_app. lia.
Qed.

Lemma lit_scalar s : Forall is_scalar (lit s).
Proof.
  unfold lit. apply Forall_forall. intros c Hc.
  apply list_elem_of_In, in_map_iff in Hc as (a & <- & _).
  pose proof (N_ascii_bounded a). left. lia.
Qed.

Lemma scan_once_brace n fuel rest :
  scan_once n (S fuel) (chr "{" :: QUOTE :: rest) = object_members n fuel [] rest.
Proof. reflexivity. Qed.

Lemma object_text_cons k v (members : list (str * item)) :
  Json.object_text ((k, StrItem v) :: members)
  = chr "{" :: QUOTE ::
      (concat (map Json.escape_char k) ++ QUOTE :: lit ": "
         ++ Json.encode_basestring_ascii v ++ members_tail members ++ []).
Proof.
  unfold Json.object_text.
  rewrite members_tail_join, member_text_quote, app_nil_r.
  change (lit "{" ++ ?x) with (chr "{" :: x).
  repeat (rewrite <- app_assoc || rewrite <- app_comm_cons). reflexivity.
Qed.

(** The reference [json.loads] reads the text of an object with
    string values back as the [dict] of its members. *)
Lemma loads_object_text (kvs : list (str * str)) :
  Forall (fun kv => Forall is_scalar kv.1 /\ Forall is_scalar kv.2) kvs ->
  JsonRef.loads (Json.object_text (str_member <$> kvs))
  = Ok (PyDict (dict_of_pairs (py_member <$> kvs))).
Proof.
  intros Hkvs. destruct kvs as [|[k v] kvs]; [reflexivity|].
  apply Forall_cons in Hkvs as [[Hk Hv] Hkvs]. simpl in Hk, Hv.
  cbn [fmap list_fmap]. unfold str_member at 1. cbn [fst snd].
  rewrite object_text_cons.
  pose proof (members_tail_length (str_member <$> kvs)) as Hl.
  rewrite length_fmap in Hl.
  set (rest := concat (map Json.escape_char k) ++ _) in *.
  assert (Hlen : (length kvs < length rest)%nat).
  { unfold rest. rewrite !length_app. simpl. rewrite !length_app. lia. }
  unfold loads.
  change (strip_prefix [65279] (chr "{" :: QUOTE :: rest)) with (@None str).
  change (skip_ws (chr "{" :: QUOTE :: rest)) with (chr "{" :: QUOTE :: rest).
  replace (2 * length (chr "{" :: QUOTE :: rest) + 2)%nat
    with (S (2 * length rest + 5))%nat by (cbn [length]; lia).
  rewrite scan_once_brace. subst rest.
  rewrite object_members_tail by (assumption || lia).
  reflexivity.
Qed.

(** The text [output_fn] returns, read back by the reference
    [json.loads]: the [dict] from the strings of the ranks to the
    texts of the records, in rank order. *)
Lemma output_fn_parses_back (predictions : list Document) (content_type : str) :
  Forall (fun p => Forall is_scalar (page_content p)) predictions ->
  exists text,
    output_fn predictions content_type = Ok text
    /\ JsonRef.loads text
       = Ok (PyDict (zip (int_repr <$> range (len predictions))
                         ((fun p => PyStr (page_content p)) <$> predictions))).
Proof.
  intros Hvalid. eexists. split; [apply output_fn_eq|].
  set (keys := int_repr <$> range (len predictions)).
  set (kvs := zip keys (page_content <$> predictions)).
  assert (Hstr : zip keys (payloads predictions) = str_member <$> kvs).
  { unfold kvs, payloads.
    change (fun p => StrItem (page_content p)) with (StrItem ∘ page_content).
    rewrite (list_fmap_compose page_content StrItem).
    rewrite <- (list_fmap_id keys) at 1.
    rewrite <- prod_map_zip. apply list_fmap_ext. intros _ [k v] _. reflexivity. }
  assert (Hpy : zip keys ((fun p => PyStr (page_content p)) <$> predictions)
                = py_member <$> kvs).
  { unfold kvs.
    change (fun p => PyStr (page_content p)) with (PyStr ∘ page_content).
    rewrite (list_fmap_compose page_content PyStr).
    rewrite <- (list_fmap_id keys) at 1.
    rewrite <- prod_map_zip. apply list_fmap_ext. intros _ [k v] _. reflexivity. }
  rewrite Hstr, Hpy, loads_object_text.
  - rewrite dict_of_pairs_fresh; [reflexivity|].
    rewrite <- Hpy. unfold dict_keys. rewrite fst_zip.
    + apply NoDup_fmap_2; [intros a b; apply int_repr_inj|apply NoDup_seqZ].
    + unfold keys. rewrite !length_fmap, range_len_length. reflexivity.
  - unfold kvs. apply Forall_forall. intros [k v] Hin.
    apply elem_of_zip_l in Hin as Hk. apply elem_of_zip_r in Hin as Hv.
    simpl in *. split.
    + unfold keys in Hk. apply list_elem_of_fmap in Hk as (i & -> & _).
      apply lit_scalar.
    + apply list_elem_of_fmap in Hv as (p & -> & Hp).
      exact (proj1 (Forall_forall _ _) Hvalid p Hp).
Qed.

End ParseBack.

End ReadBack.


Section OutputProperties.

(** C1: for every ordered sequence of n result records, output_fn
    returns the text of a JSON object with exactly n members; their
    keys are the strings of 0, ..., n-1, in that order and pairwise
    distinct; the member of rank i holds the page_content of the i-th
    record; the text depends on the records through their page_content
    alone, no other field reaches it; and, the texts being well-formed
    Unicode, the reference json.loads reads the output back as the
    dictionary from the strings of the ranks to the texts. *)
Theorem output_fn_rank_keyed (predictions : list Document) (content_type : str) :
  let n := len predictions in
  let members := zip (int_repr <$> range n) (payloads predictions) in
  output_fn predictions content_type = Ok (Json.object_text members)
  /\ length members = length predictions
  /\ members.*1 = int_repr <$> range n
  /\ NoDup (members.*1)
  /\ members.*2 = (fun p => StrItem (page_content p)) <$> predictions
  /\ (forall (i : nat) (p : Document),
        predictions !! i = Some p ->
        members !! i = Some (int_repr (Z.of_nat i), StrItem (page_content p)))
  /\ (forall predictions' : list Document,
        page_content <$> predictions' = page_content <$> predictions ->
        output_fn predictions' content_type = output_fn predictions content_type)
  /\ (Forall (fun p => Forall is_scalar (page_content p)) predictions ->
      JsonRef.loads (Json.object_text members)
      = Ok (PyDict (zip (int_repr <$> range n)
                        ((fun p => PyStr (page_content p)) <$> predictions)))).
Proof.
  intros n members.
  assert (Hlen : length (int_repr <$> range n) = length (payloads predictions)).
  { unfold payloads, n. rewrite !length_fmap. apply range_len_length. }
  split; [apply output_fn_eq|].
  split; [unfold members; rewrite length_zip_with, Hlen, Nat.min_id;
          unfold payloads; apply length_fmap|].
  split; [apply fst_zip; rewrite Hlen; reflexivity|].
  split; [unfold members; rewrite fst_zip by (rewrite Hlen; reflexivity);
          apply NoDup_fmap_2; [intros a b; apply int_repr_inj|apply NoDup_seqZ]|].
  split; [apply snd_zip; rewrite Hlen; reflexivity|].
  split.
  - intros i p Hp. unfold members. apply lookup_zip_with_Some.
    exists (int_repr (Z.of_nat i)), (StrItem (page_content p)).
    split; [reflexivity|]. split.
    + rewrite list_lookup_fmap. unfold range, n, len.
      rewrite lookup_seqZ_lt; [reflexivity|].
      apply lookup_lt_Some in Hp. lia.
    + unfold payloads. rewrite list_lookup_fmap, Hp. reflexivity.
  - split.
    + intros predictions' Heq. rewrite !output_fn_eq.
      assert (Hl : len predictions' = len predictions).
      { unfold len. f_equal.
        rewrite <- (length_fmap page_content predictions'), Heq.
        apply length_fmap. }
      rewrite Hl, (payloads_page_content _ _ Heq). reflexivity.
    + intros Hvalid.
      destruct (output_fn_parses_back predictions content_type Hvalid)
        as (text & Htext & Hloads).
      rewrite output_fn_eq in Htext. injection Htext as <-. exact Hloads.
Qed.

(** C7: output_fn applied to the empty result sequence returns the
    empty JSON object, the string of the two braces; and only the
    empty sequence gives that text. *)
Theorem output_fn_empty (content_type : str) :
  output_fn [] content_type = Ok (lit "{}")
  /\ (forall predictions : list Document,
        output_fn predictions content_type = Ok (lit "{}") ->
        predictions = []).
Proof.
  split; [reflexivity|].
  intros [|p predictions] Hout; [reflexivity|].
  rewrite output_fn_eq in Hout. injection Hout as Hout.
  unfold len, range, payloads in Hout. cbn [length fmap list_fmap] in Hout.
  rewrite seqZ_cons in Hout by lia. cbn [fmap list_fmap zip zip_with] in Hout.
  rewrite object_text_cons in Hout. discriminate Hout.
Qed.

(** C10: output_fn is total on lists of result records: it returns a
    text and never raises; every index of its loop is an index of the
    prediction list, and, when the loop reaches it, a key of the
    dictionary built before the loop, whose keys stay 0, ..., n-1. *)
Theorem output_fn_total (predictions : list Document) (content_type : str) :
  let n := len predictions in
  (exists text, output_fn predictions content_type = Ok text)
  /\ Forall (fun ind => 0 <= ind < n /\
                        is_ok (list_getitem predictions ind) = true)
            (range n)
  /\ dict_keys (initial_dict predictions) = range n
  /\ (forall (j : nat) (ind : Z),
        range n !! j = Some ind ->
        exists d,
          output_loop predictions (take j (range n)) (initial_dict predictions)
          = Ok d
          /\ dict_keys d = range n /\ ind ∈ dict_keys d).
Proof.
  intros n.
  split; [eexists; apply output_fn_eq|].
  split; [apply range_in_bounds|].
  split; [apply initial_dict_keys|].
  intros j ind Hind.
  destruct (output_loop_keys predictions (take j (range n))
              (initial_dict predictions)) as (d & Hd & Hk).
  - apply Forall_take. rewrite initial_dict_keys.
    pose proof (range_in_bounds predictions) as Hall.
    apply Forall_lookup. intros i k Hk.
    split; [apply list_elem_of_lookup; eauto|].
    exact (proj2 (proj1 (Forall_lookup _ _) Hall i k Hk)).
  - exists d. rewrite Hk, initial_dict_keys.
    split; [exact Hd|]. split; [reflexivity|].
    apply list_elem_of_lookup. eauto.
Qed.

End OutputProperties.

(** ** The hooks on the process *)

Section HookFacts.

Context `{JL : JsonLib} `{LC : LangChain}.

Lemma input_fn_json request_body :
  input_fn request_body (lit "application/json") = json_loads request_body.
Proof.
  unfold input_fn. rewrite decide_True by reflexivity.
  destruct (json_loads request_body); reflexivity.
Qed.

Lemma input_fn_other request_body request_content_type :
  request_content_type <> lit "application/json" ->
  input_fn request_body request_content_type = Err content_type_error.
Proof. intros Hne. unfold input_fn. rewrite decide_False by exact Hne. reflexivity. Qed.

(** A request that fails in [input_fn] ends there. *)
Lemma transform_input_error model req e w :
  input_fn (body req) (content_type req) = Err e ->
  transform model req w = (Err e, w).
Proof. intros Hin. unfold transform, mbind, lift. rewrite Hin. reflexivity. Qed.

(** [predict_fn] when the first field it reads is not there. *)
Lemma predict_fn_text_error input_data model w e :
  is_Some (heap w !! model) ->
  getitem input_data (lit "text") = Err e ->
  predict_fn input_data model w = (Err e, w).
Proof.
  intros [o Ho] Htext.
  unfold predict_fn, mbind, getattr_similarity_search, lift.
  rewrite Ho, Htext. reflexivity.
Qed.

(** [predict_fn] when the second field it reads is not there. *)
Lemma predict_fn_k_error input_data model w text e :
  is_Some (heap w !! model) ->
  getitem input_data (lit "text") = Ok text ->
  getitem input_data (lit "k") = Err e ->
  predict_fn input_data model w = (Err e, w).
Proof.
  intros [o Ho] Htext Hk.
  unfold predict_fn, mbind, getattr_similarity_search, lift.
  rewrite Ho, Htext, Hk. reflexivity.
Qed.

(** [predict_fn] when both fields are there: one search, on the two
    values as they are, and its outcome as it is. *)
Lemma predict_fn_search input_data model w o text k :
  heap w !! model = Some o ->
  getitem input_data (lit "text") = Ok text ->
  getitem input_data (lit "k") = Ok k ->
  predict_fn input_data model w
  = (fst (similarity_search o text k), after_search model o text k w).
Proof.
  intros Ho Htext Hk.
  unfold predict_fn, mbind, getattr_similarity_search, lift,
    call_similarity_search, mbind, log, mret, after_search.
  rewrite Ho, Htext, Hk. simpl. rewrite Ho.
  destruct (similarity_search o text k) as [[results|e] o']; reflexivity.
Qed.

(** [predict_fn] on a handle that is no vector store of the process. *)
Lemma predict_fn_no_model input_data model w :
  heap w !! model = None ->
  exists e, predict_fn input_data model w = (Err e, w).
Proof.
  intros Ho. eexists.
  unfold predict_fn, mbind, getattr_similarity_search. rewrite Ho. reflexivity.
Qed.

(** What [predict_fn] can do to the process: nothing, or one search. *)
Lemma predict_fn_cases input_data model w :
  (exists e, predict_fn input_data model w = (Err e, w))
  \/ (exists o text k,
        heap w !! model = Some o /\
        predict_fn input_data model w
        = (fst (similarity_search o text k), after_search model o text k w)).
Proof.
  destruct (heap w !! model) as [o|] eqn:Ho.
  - destruct (getitem input_data (lit "text")) as [text|e] eqn:Htext.
    + destruct (getitem input_data (lit "k")) as [k|e] eqn:Hk.
      * right. exists o, text, k. split; [reflexivity|].
        apply predict_fn_search; assumption.
      * left. exists e. eapply predict_fn_k_error; eauto.
    + left. exists e. apply predict_fn_text_error; eauto.
  - left. apply predict_fn_no_model. exact Ho.
Qed.

Lemma os_path_join_relative (a b : str) :
  startswith b 47%N = false ->
  exists sep, (sep = [] \/ sep = lit "/") /\ os_path_join a b = a ++ sep ++ b.
Proof.
  intros Hrel. unfold os_path_join. rewrite Hrel.
  destruct (match a with [] => true | _ => endswith a 47%N end).
  - exists []. split; [left|]; reflexivity.
  - exists (lit "/"). split; [right|]; reflexivity.
Qed.

End HookFacts.

Section HookProperties.

Context `{JL : JsonLib} `{LC : LangChain}.

(** C2: for every request body and every declared content type other
    than application/json, input_fn fails with the content-type error,
    and the request ends there with the process as it was, no search
    made; for application/json, input_fn is the parse of the body. *)
Theorem input_fn_content_type (request_body request_content_type : str) :
  (request_content_type <> lit "application/json" ->
   input_fn request_body request_content_type = Err content_type_error
   /\ forall model accept w,
        transform model (mkRequest request_body request_content_type accept) w
        = (Err content_type_error, w))
  /\ input_fn request_body (lit "application/json") = json_loads request_body.
Proof.
  split; [|apply input_fn_json].
  intros Hne. split; [apply input_fn_other; exact Hne|].
  intros model accept w. apply transform_input_error. simpl.
  apply input_fn_other. exact Hne.
Qed.


(** C4: for every request body json.loads accepts, input_fn with
    content type application/json returns the parsed value as it is,
    whatever it holds, and the request goes on with predict_fn on that
    value, nothing in between; a missing field raises only in
    predict_fn, when it reads [text] and then [k], before any search;
    and fields that are there go to the search as they are, of whatever
    type, so that a failure on them is the failure of the search
    itself. *)
Theorem input_fn_no_field_validation (request_body : str) (input_data : pyval) :
  json_loads request_body = Ok input_data ->
  input_fn request_body (lit "application/json") = Ok input_data
  /\ (forall model accept w,
        transform model (mkRequest request_body (lit "application/json") accept) w
        = mbind (predict_fn input_data model)
                (fun predictions => lift (output_fn predictions accept)) w)
  /\ (forall d key, dict_get d key = None ->
        getitem (PyDict d) key = Err (KeyError key))
  /\ (forall model w e,
        is_Some (heap w !! model) ->
        getitem input_data (lit "text") = Err e ->
        predict_fn input_data model w = (Err e, w))
  /\ (forall model w text e,
        is_Some (heap w !! model) ->
        getitem input_data (lit "text") = Ok text ->
        getitem input_data (lit "k") = Err e ->
        predict_fn input_data model w = (Err e, w))
  /\ (forall model w o text k,
        heap w !! model = Some o ->
        getitem input_data (lit "text") = Ok text ->
        getitem input_data (lit "k") = Ok k ->
        predict_fn input_data model w
        = (fst (similarity_search o text k), after_search model o text k w)).
Proof.
  intros Hok.
  assert (Hin : input_fn request_body (lit "application/json") = Ok input_data)
    by (rewrite input_fn_json; exact Hok).
  split; [exact Hin|].
  split; [intros model accept w; unfold transform, mbind at 1, lift at 1;
          simpl; rewrite Hin; reflexivity|].
  split; [intros d key Hnone; simpl; rewrite Hnone; reflexivity|].
  split; [intros; apply predict_fn_text_error; assumption|].
  split; [intros; eapply predict_fn_k_error; eassumption|].
  intros. apply predict_fn_search; assumption.
Qed.

(** C5: for every decoded query with fields text and k and every
    loaded index handle, predict_fn returns exactly what the
    similarity search of the index returns on (text, k), the same
    records in the same order, after exactly one search call with
    these two values, whatever k is. *)
Theorem predict_fn_delegates (input_data : pyval) (model : loc) (w : World)
    (o : VectorStore) (text k : pyval) :
  heap w !! model = Some o ->
  getitem input_data (lit "text") = Ok text ->
  getitem input_data (lit "k") = Ok k ->
  fst (predict_fn input_data model w) = fst (similarity_search o text k)
  /\ calls (snd (predict_fn input_data model w))
     = calls w ++ [CallSearch model text k].
Proof.
  intros Ho Htext Hk.
  rewrite (predict_fn_search _ _ _ _ _ _ Ho Htext Hk). split; reflexivity.
Qed.

(** C9: the result of output_fn does not depend on its content_type
    argument: on the same predictions, any two content types give the
    same result, which is never an error; and a request gets the same
    response and leaves the same process whatever content type is
    asked for the response. *)
Theorem output_fn_ignores_content_type (predictions : list Document)
    (content_type1 content_type2 : str) :
  output_fn predictions content_type1 = output_fn predictions content_type2
  /\ is_ok (output_fn predictions content_type1) = true
  /\ (forall model request_body request_content_type w,
        transform model
          (mkRequest request_body request_content_type content_type1) w
        = transform model
            (mkRequest request_body request_content_type content_type2) w).
Proof.
  split; [reflexivity|].
  split; [rewrite output_fn_eq; reflexivity|].
  intros model request_body request_content_type w. reflexivity.
Qed.

(** C6: for every directory path model_dir, model_fn first builds the
    embedding function with the model name BAAI/bge-small-en-v1.5, the
    device cpu, normalize_embeddings off and the fixed query
    instruction, then loads the index from model_dir joined with
    faiss_vector_store, handing over the embedding function it just
    built; the handle it returns is the new store object. *)
Theorem model_fn_loads_fixed_index (model_dir : str) (w : World) :
  let args :=
    mkBgeArgs (lit "BAAI/bge-small-en-v1.5")
              [(lit "device", PyStr (lit "cpu"))]
              [(lit "normalize_embeddings", PyBool false)]
              (lit "Represent this sentence for searching relevant passages: ") in
  let vs_path := os_path_join model_dir (lit "faiss_vector_store") in
  (exists sep, (sep = [] \/ sep = lit "/") /\
               vs_path = model_dir ++ sep ++ lit "faiss_vector_store")
  /\ match HuggingFaceBgeEmbeddings args with
     | Err e =>
         model_fn model_dir w
         = (Err e, mkWorld (heap w) (calls w ++ [CallEmbeddings args]))
     | Ok hf =>
         let calls' :=
           calls w ++ [CallEmbeddings args; CallLoadLocal vs_path hf] in
         match FAISS_load_local vs_path hf with
         | Err e => model_fn model_dir w = (Err e, mkWorld (heap w) calls')
         | Ok vs =>
             let model := fresh (dom (heap w)) in
             heap w !! model = None
             /\ model_fn model_dir w
                = (Ok model, mkWorld (<[model := vs]> (heap w)) calls')
         end
     end.
Proof.
  intros args vs_path.
  split; [apply os_path_join_relative; reflexivity|].
  unfold model_fn, mbind, new_embeddings, load_local, mbind, log, lift, mret.
  fold args. fold vs_path. simpl.
  destruct (HuggingFaceBgeEmbeddings args) as [hf|e]; [|reflexivity].
  simpl. rewrite <- app_assoc. simpl.
  destruct (FAISS_load_local vs_path hf) as [vs|e]; [|reflexivity].
  split; [|reflexivity].
  apply not_elem_of_dom. apply is_fresh.
Qed.








End HookProperties.

(** ** The hooks on the reference process *)

Section ReferenceRuns.

Example int_repr_digits :
  int_repr 0 = lit "0" /\ int_repr 1 = lit "1" /\ int_repr 10 = lit "10"
  /\ int_repr 123 = lit "123".
Proof. repeat split; reflexivity. Qed.

Example ref_json_loads :
  JsonRef.loads ref_query = Ok ref_input
  /\ JsonRef.loads ref_query_no_k = Ok ref_input_no_k
  /\ JsonRef.loads ref_query_bad_k = Ok ref_input_bad_k
  /\ JsonRef.loads ref_malformed = Err ref_parse_error.
Proof. repeat split; vm_compute; reflexivity. Qed.

Example ref_model_fn :
  @model_fn ref_lc (lit "/opt/ml/model") ref_start
  = (Ok ref_model,
     @mkWorld ref_lc {[ ref_model := ref_store ]}
       [@CallEmbeddings ref_lc bge_args;
        @CallLoadLocal ref_lc (lit "/opt/ml/model/faiss_vector_store") bge_args]).
Proof. vm_compute. reflexivity. Qed.

Example ref_world_model : @heap ref_lc ref_world !! ref_model = Some ref_store.
Proof. vm_compute. reflexivity. Qed.

(** The scenario of two results out of three documents. *)
Example ref_transform_two :
  fst (@transform ref_json ref_lc ref_model (ref_request ref_query) ref_world)
  = Ok (json_lit "{'0': 'alpha passage', '1': 'beta passage'}").
Proof. vm_compute. reflexivity. Qed.

(** A count beyond the size of the index: all the documents. *)
Example ref_transform_all :
  fst (@transform ref_json ref_lc ref_model
         (ref_request (json_lit "{'text': 'example query', 'k': 7}")) ref_world)
  = Ok (json_lit
          "{'0': 'alpha passage', '1': 'beta passage', '2': 'gamma passage'}").
Proof. vm_compute. reflexivity. Qed.

(** A count of zero: the empty object. *)
Example ref_transform_none :
  fst (@transform ref_json ref_lc ref_model
         (ref_request (json_lit "{'text': 'example query', 'k': 0}")) ref_world)
  = Ok (lit "{}").
Proof. vm_compute. reflexivity. Qed.

(** A wrong-typed count passes [input_fn] and fails in the search. *)
Example ref_transform_bad_k :
  @input_fn ref_json ref_query_bad_k (lit "application/json") = Ok ref_input_bad_k
  /\ fst (@predict_fn ref_lc ref_input_bad_k ref_model ref_world)
     = Err (TypeError (lit "k is not an integer")).
Proof. split; vm_compute; reflexivity. Qed.

(** Escapes of [json.dumps]: a quote, a line feed, a letter outside
    ASCII and a character outside the basic plane. *)
Example output_fn_escapes :
  output_fn [mkDocument [34; 10; 233; 128512]%N []] (lit "application/json")
  = Ok (lit "{" ++ [34; 48; 34]%N ++ lit ": " ++ [34%N]
        ++ [92; 34]%N ++ lit "\n\u00e9\ud83d\ude00" ++ [34%N] ++ lit "}").
Proof. vm_compute. reflexivity. Qed.

(** C2 at the content type text/plain, on the reference process. *)
Lemma input_fn_content_type_witness :
  lit "text/plain" <> lit "application/json"
  /\ @input_fn ref_json ref_query (lit "text/plain") = Err content_type_error
  /\ @transform ref_json ref_lc ref_model
       (mkRequest ref_query (lit "text/plain") (lit "application/json")) ref_world
     = (Err content_type_error, ref_world).
Proof.
  assert (Hne : lit "text/plain" <> lit "application/json")
    by (vm_compute; discriminate).
  destruct (proj1 (@input_fn_content_type ref_json ref_lc ref_query
                     (lit "text/plain")) Hne) as [Hin Hreq].
  split; [exact Hne|]. split; [exact Hin|apply Hreq].
Defined.


(** C4 at a query without the field k, on the reference process. *)
Lemma input_fn_no_field_validation_witness :
  @json_loads ref_json ref_query_no_k = Ok ref_input_no_k
  /\ @input_fn ref_json ref_query_no_k (lit "application/json")
     = Ok ref_input_no_k
  /\ @predict_fn ref_lc ref_input_no_k ref_model ref_world
     = (Err (KeyError (lit "k")), ref_world).
Proof.
  assert (Hok : @json_loads ref_json ref_query_no_k = Ok ref_input_no_k)
    by (vm_compute; reflexivity).
  destruct (@input_fn_no_field_validation ref_json ref_lc ref_query_no_k
              ref_input_no_k Hok) as (Hin & _ & _ & _ & Hk & _).
  split; [exact Hok|]. split; [exact Hin|].
  apply (Hk ref_model ref_world (PyStr (lit "example query"))).
  - exists ref_store. vm_compute. reflexivity.
  - vm_compute. reflexivity.
  - vm_compute. reflexivity.
Defined.

(** C5 at the query for two results, on the reference process. *)
Lemma predict_fn_delegates_witness :
  @heap ref_lc ref_world !! ref_model = Some ref_store
  /\ getitem ref_input (lit "text") = Ok (PyStr (lit "example query"))
  /\ getitem ref_input (lit "k") = Ok (PyInt 2)
  /\ fst (@predict_fn ref_lc ref_input ref_model ref_world)
     = fst (FaissRef.search ref_store (PyStr (lit "example query")) (PyInt 2))
  /\ @calls ref_lc (snd (@predict_fn ref_lc ref_input ref_model ref_world))
     = @calls ref_lc ref_world
       ++ [@CallSearch ref_lc ref_model (PyStr (lit "example query")) (PyInt 2)].
Proof.
  assert (Ho : @heap ref_lc ref_world !! ref_model = Some ref_store)
    by (vm_compute; reflexivity).
  assert (Htext : getitem ref_input (lit "text")
                  = Ok (PyStr (lit "example query")))
    by (vm_compute; reflexivity).
  assert (Hk : getitem ref_input (lit "k") = Ok (PyInt 2))
    by (vm_compute; reflexivity).
  split; [exact Ho|]. split; [exact Htext|]. split; [exact Hk|].
  exact (@predict_fn_delegates ref_lc ref_input ref_model ref_world
           ref_store _ _ Ho Htext Hk).
Defined.


End ReferenceRuns.

(** * Further properties of the hooks *)

Section OutputText.

Lemma hex_digit_printable d : (d < 16)%N -> printable (Json.hex_digit d).
Proof.
  intros Hd. unfold Json.hex_digit, printable.
  destruct (N.ltb_spec d 10); lia.
Qed.

Lemma u_escape_printable n : Forall printable (Json.u_escape n).
Proof.
  unfold Json.u_escape.
  repeat apply Forall_cons_2; try apply Forall_nil_2;
    try (unfold printable; lia);
    apply hex_digit_printable; apply N.mod_lt; discriminate.
Qed.

Lemma escape_char_printable c : Forall printable (Json.escape_char c).
Proof.
  unfold Json.escape_char.
  repeat match goal with
         | |- context [if (c =? ?k)%N then _ else _] =>
             destruct (N.eqb_spec c k)
         end;
    try (repeat apply Forall_cons_2; try apply Forall_nil_2;
         unfold printable; lia).
  destruct (N.leb_spec 32 c), (N.leb_spec c 126); cbn [andb];
    try (apply Forall_cons_2; [unfold printable; lia|apply Forall_nil_2]);
    (destruct (c <? 65536)%N;
     [apply u_escape_printable
     |apply Forall_app_2; apply u_escape_printable]).
Qed.

Lemma encode_printable s : Forall printable (Json.encode_basestring_ascii s).
Proof.
  unfold Json.encode_basestring_ascii.
  apply Forall_app_2; [|apply Forall_app_2].
  - apply Forall_cons_2; [unfold printable; lia|apply Forall_nil_2].
  - apply Forall_concat, Forall_fmap, Forall_forall.
    intros c _. apply escape_char_printable.
  - apply Forall_cons_2; [unfold printable; lia|apply Forall_nil_2].
Qed.

Lemma lit_printable_sep :
  Forall printable (lit ": ") /\ Forall printable (lit ", ")
  /\ Forall printable (lit "{") /\ Forall printable (lit "}")
  /\ Forall printable (lit "{}").
Proof.
  repeat split;
    repeat apply Forall_cons_2; try apply Forall_nil_2;
    unfold printable; vm_compute; split; discriminate.
Qed.

Lemma member_text_printable k s :
  Forall printable (Json.member_text (k, StrItem s)).
Proof.
  unfold Json.member_text. cbn [fst snd Json.dumps_item].
  apply Forall_app_2; [apply encode_printable|].
  apply Forall_app_2; [apply lit_printable_sep|apply encode_printable].
Qed.

Lemma join_printable sep parts :
  Forall printable sep -> Forall (Forall printable) parts ->
  Forall printable (Json.join sep parts).
Proof.
  intros Hsep. induction 1 as [|p parts Hp Hparts IH]; [apply Forall_nil_2|].
  destruct parts as [|q parts]; [exact Hp|].
  change (Json.join sep (p :: q :: parts))
    with (p ++ sep ++ Json.join sep (q :: parts)).
  apply Forall_app_2; [exact Hp|]. apply Forall_app_2; [exact Hsep|exact IH].
Qed.

Lemma object_text_printable (kvs : list (str * str)) :
  Forall printable (Json.object_text (str_member <$> kvs)).
Proof.
  unfold Json.object_text.
  destruct (str_member <$> kvs) as [|m ms] eqn:Hm; [apply lit_printable_sep|].
  rewrite <- Hm.
  apply Forall_app_2; [apply lit_printable_sep|].
  apply Forall_app_2; [|apply lit_printable_sep].
  apply join_printable; [apply lit_printable_sep|].
  apply Forall_fmap, Forall_fmap, Forall_forall. intros [k s] _.
  apply member_text_printable.
Qed.

Lemma object_text_braces (members : list (str * item)) :
  head (Json.object_text members) = Some 123%N
  /\ last (Json.object_text members) = Some 125%N.
Proof.
  unfold Json.object_text. destruct members as [|m ms]; [split; reflexivity|].
  split; [reflexivity|].
  change (lit "}") with [125%N]. rewrite !app_assoc. apply last_snoc.
Qed.

Lemma payload_members (keys : list str) (predictions : list Document) :
  zip keys (payloads predictions)
  = str_member <$> zip keys (page_content <$> predictions).
Proof.
  unfold payloads.
  change (fun p => StrItem (page_content p)) with (StrItem ∘ page_content).
  rewrite (list_fmap_compose page_content StrItem).
  rewrite <- (list_fmap_id keys) at 1.
  rewrite <- prod_map_zip. apply list_fmap_ext. intros _ [k v] _. reflexivity.
Qed.

(** X1: the text output_fn returns is printable ASCII throughout,
    whatever the texts of the records hold, and it opens with a brace
    and closes with one. *)
Theorem output_fn_printable_ascii (predictions : list Document) (content_type : str) :
  exists text,
    output_fn predictions content_type = Ok text
    /\ Forall printable text
    /\ head text = Some 123%N
    /\ last text = Some 125%N.
Proof.
  eexists. split; [apply output_fn_eq|].
  split; [rewrite payload_members; apply object_text_printable|].
  apply object_text_braces.
Qed.

End OutputText.

Section OutputDict.

Lemma dict_get_zip {V} (ks : list Z) :
  forall (vs : list V) (i : nat) k v,
    NoDup ks -> ks !! i = Some k -> vs !! i = Some v ->
    dict_get (zip ks vs) k = Some v.
Proof.
  induction ks as [|k0 ks IH]; intros vs i k v Hnd Hk Hv; [discriminate|].
  destruct vs as [|v0 vs]; [discriminate|].
  apply NoDup_cons in Hnd as [Hnotin Hnd]. simpl.
  destruct i as [|i]; simpl in Hk, Hv.
  - injection Hk as ->. injection Hv as ->.
    destruct (decide (k = k)); [reflexivity|congruence].
  - destruct (decide (k0 = k)) as [->|_].
    + exfalso. apply Hnotin. apply list_elem_of_lookup. eauto.
    + eapply IH; eauto.
Qed.

Lemma dict_get_absent {V} (d : list (Z * V)) k :
  k ∉ dict_keys d -> dict_get d k = None.
Proof.
  induction d as [|[k0 v0] d IH]; simpl; intros Hk; [reflexivity|].
  apply not_elem_of_cons in Hk as [Hne Hk].
  destruct (decide (k0 = k)); [congruence|]. apply IH. exact Hk.
Qed.

(** X2: the integers the dictionary of output_fn is built with never
    reach json.dumps: after the loop every value is a text, the key i
    holds the page_content of the record of rank i, and no key
    outside 0, ..., n-1 is there. *)
Theorem output_dict_holds_texts (predictions : list Document) :
  exists out_dict,
    output_dict predictions = Ok out_dict
    /\ Forall (fun v => exists n, v = IntItem n)
              (dict_values (initial_dict predictions))
    /\ Forall (fun v => exists s, v = StrItem s) (dict_values out_dict)
    /\ (forall (i : nat) (p : Document),
          predictions !! i = Some p ->
          dict_get out_dict (Z.of_nat i) = Some (StrItem (page_content p)))
    /\ (forall k : Z,
          ~ (0 <= k < len predictions) -> dict_get out_dict k = None).
Proof.
  eexists. split; [apply output_dict_eq|].
  assert (Hlen : length (range (len predictions)) = length (payloads predictions)).
  { unfold payloads. rewrite length_fmap. apply range_len_length. }
  split; [|split; [|split]].
  - rewrite initial_dict_eq. unfold dict_values.
    rewrite snd_zip by (rewrite length_fmap; reflexivity).
    apply Forall_fmap, Forall_forall. intros n _. simpl. eauto.
  - unfold dict_values. rewrite snd_zip by (rewrite Hlen; reflexivity).
    unfold payloads. apply Forall_fmap, Forall_forall. intros p _. simpl. eauto.
  - intros i p Hp. apply (dict_get_zip _ _ i).
    + apply NoDup_seqZ.
    + unfold range, len. rewrite lookup_seqZ_lt; [f_equal; lia|].
      apply lookup_lt_Some in Hp. lia.
    + unfold payloads. rewrite list_lookup_fmap, Hp. reflexivity.
  - intros k Hk. apply dict_get_absent.
    rewrite dict_keys_zip by exact Hlen.
    unfold range. rewrite elem_of_seqZ. lia.
Qed.

End OutputDict.

Section OutputInjective.

(** X3: on records whose texts are well-formed Unicode, output_fn
    loses nothing of the texts: two lists of records with the same
    output have the same page_content, rank by rank. *)
Theorem output_fn_injective (ps qs : list Document) (ct1 ct2 : str) :
  Forall (fun p => Forall is_scalar (page_content p)) ps ->
  Forall (fun p => Forall is_scalar (page_content p)) qs ->
  output_fn ps ct1 = output_fn qs ct2 ->
  page_content <$> ps = page_content <$> qs.
Proof.
  intros Hps Hqs Heq.
  destruct (output_fn_parses_back ps ct1 Hps) as (tp & Htp & Hlp).
  destruct (output_fn_parses_back qs ct2 Hqs) as (tq & Htq & Hlq).
  rewrite Htp, Htq in Heq. injection Heq as ->.
  rewrite Hlp in Hlq. injection Hlq as Hzip.
  apply (f_equal (fmap snd)) in Hzip.
  rewrite !snd_zip in Hzip
    by (rewrite !length_fmap, range_len_length; reflexivity).
  change (fun p => PyStr (page_content p)) with (PyStr ∘ page_content) in Hzip.
  rewrite !(list_fmap_compose page_content PyStr) in Hzip.
  revert Hzip. generalize (page_content <$> ps) (page_content <$> qs).
  induction l as [|a l IH]; intros [|b l'] Hzip; try discriminate; [reflexivity|].
  injection Hzip as -> Hl. f_equal. apply IH. exact Hl.
Qed.

End OutputInjective.

Section RequestPath.

Context `{JL : JsonLib} `{LC : LangChain}.

(** X4: predict_fn reads the query through its fields text and k
    and nothing else: two queries that agree on these two subscripts
    get the same result and leave the same process. *)
Theorem predict_fn_reads_two_fields (input_data1 input_data2 : pyval)
    (model : loc) (w : World) :
  getitem input_data1 (lit "text") = getitem input_data2 (lit "text") ->
  getitem input_data1 (lit "k") = getitem input_data2 (lit "k") ->
  predict_fn input_data1 model w = predict_fn input_data2 model w.
Proof.
  intros Htext Hk. unfold predict_fn, mbind, lift.
  rewrite Htext, Hk. reflexivity.
Qed.

Lemma getitem_not_dict v key :
  is_dict v = false -> exists msg, getitem v key = Err (TypeError msg).
Proof. destruct v; simpl; intros Hv; try discriminate; eauto. Qed.

(** X5: on a loaded handle, predict_fn fails before any search, the
    process left as it was, with TypeError when the decoded body is no
    dict, with KeyError on text when text is missing, whether k is
    there or not, and with KeyError on k when only k is missing. *)
Theorem predict_fn_field_errors (model : loc) (w : World) :
  is_Some (heap w !! model) ->
  (forall input_data,
     is_dict input_data = false ->
     exists msg, predict_fn input_data model w = (Err (TypeError msg), w))
  /\ (forall d,
        dict_get d (lit "text") = None ->
        predict_fn (PyDict d) model w = (Err (KeyError (lit "text")), w))
  /\ (forall d text,
        dict_get d (lit "text") = Some text ->
        dict_get d (lit "k") = None ->
        predict_fn (PyDict d) model w = (Err (KeyError (lit "k")), w)).
Proof.
  intros Hm. split; [|split].
  - intros input_data Hv.
    destruct (getitem_not_dict input_data (lit "text") Hv) as [msg Hmsg].
    exists msg. apply predict_fn_text_error; assumption.
  - intros d Htext. apply predict_fn_text_error; [exact Hm|].
    simpl. rewrite Htext. reflexivity.
  - intros d text Htext Hk. apply (predict_fn_k_error _ _ _ text); [exact Hm| |].
    + simpl. rewrite Htext. reflexivity.
    + simpl. rewrite Hk. reflexivity.
Qed.

Lemma predict_fn_frame input_data model w :
  let w' := snd (predict_fn input_data model w) in
  dom (heap w') = dom (heap w)
  /\ (forall l, l <> model -> heap w' !! l = heap w !! l)
  /\ (calls w' = calls w
      \/ exists text k, calls w' = calls w ++ [CallSearch model text k]).
Proof.
  destruct (predict_fn_cases input_data model w)
    as [[e ->]|(o & text & k & Ho & ->)]; simpl.
  - split; [reflexivity|]. split; [reflexivity|left; reflexivity].
  - split; [|split].
    + rewrite dom_insert_L. apply subseteq_union_1_L.
      apply singleton_subseteq_l, elem_of_dom. eauto.
    + intros l Hl. apply lookup_insert_ne. congruence.
    + right. eauto.
Qed.

Lemma transform_world model req w :
  snd (transform model req w) = w
  \/ exists input_data,
       snd (transform model req w) = snd (predict_fn input_data model w).
Proof.
  unfold transform, mbind, lift.
  destruct (input_fn (body req) (content_type req)) as [input_data|e];
    [|left; reflexivity].
  right. exists input_data.
  destruct (predict_fn input_data model w) as [[predictions|e] w']; reflexivity.
Qed.

Lemma transform_effect model req w :
  dom (heap (snd (transform model req w))) = dom (heap w)
  /\ (forall l, l <> model -> heap (snd (transform model req w)) !! l = heap w !! l)
  /\ (calls (snd (transform model req w)) = calls w
      \/ exists text k,
           calls (snd (transform model req w))
           = calls w ++ [CallSearch model text k]).
Proof.
  destruct (transform_world model req w) as [->|[input_data ->]].
  - split; [reflexivity|]. split; [reflexivity|left; reflexivity].
  - apply predict_fn_frame.
Qed.

(** X6: whatever the search of the library does, a request creates
    and deletes no store object, leaves every object but the handle
    as it was, calls the library at most once, and only for one
    search on the handle: it never loads an index or a model. *)
Theorem transform_frame (model : loc) (req : Request) (w : World) :
  let w' := snd (transform model req w) in
  dom (heap w') = dom (heap w)
  /\ (forall l, l <> model -> heap w' !! l = heap w !! l)
  /\ (calls w' = calls w
      \/ exists text k, calls w' = calls w ++ [CallSearch model text k]).
Proof.
  destruct (transform_world model req w) as [->|[input_data ->]].
  - split; [reflexivity|]. split; [reflexivity|left; reflexivity].
  - apply predict_fn_frame.
Qed.

(** X7: a run of requests answers each of them, makes at most one
    search a request, all on the handle, no other call to the library,
    and keeps the store objects of the process. *)
Theorem serve_searches (model : loc) (reqs : list Request) (w : World) :
  exists searches,
    calls (snd (serve model reqs w)) = calls w ++ searches
    /\ (length searches <= length reqs)%nat
    /\ Forall (fun c => exists text k, c = CallSearch model text k) searches
    /\ length (fst (serve model reqs w)) = length reqs
    /\ dom (heap (snd (serve model reqs w))) = dom (heap w).
Proof.
  revert w. induction reqs as [|req reqs IH]; intros w.
  - exists []. simpl. rewrite app_nil_r. repeat split; auto.
  - simpl.
    pose proof (transform_effect model req w) as (Hdom & _ & Hcalls).
    destruct (transform model req w) as [r w'] eqn:Ht. simpl in Hdom, Hcalls.
    destruct (IH w') as (searches & Hs & Hlen & Hall & Hres & Hd).
    destruct (serve model reqs w') as [rs w'']. simpl in *.
    destruct Hcalls as [Hc|(text & k & Hc)].
    + exists searches. rewrite Hs, Hc, Hd, Hdom.
      repeat split; auto; lia.
    + exists (CallSearch model text k :: searches).
      rewrite Hs, Hc, Hd, Hdom, <- app_assoc.
      repeat split; simpl; auto; try lia.
      apply Forall_cons_2; eauto.
Qed.

End RequestPath.

Section Pipeline.

Context `{JL : JsonLib} `{LC : LangChain}.

(** X8: a request whose body input_fn decodes to a query with text
    and k, on a loaded handle whose search returns records, is answered
    with the object of these records keyed by rank, after that one
    search. *)
Theorem transform_success (model : loc) (req : Request) (w : World)
    (input_data : pyval) (o : VectorStore) (text k : pyval)
    (predictions : list Document) :
  input_fn (body req) (content_type req) = Ok input_data ->
  heap w !! model = Some o ->
  getitem input_data (lit "text") = Ok text ->
  getitem input_data (lit "k") = Ok k ->
  fst (similarity_search o text k) = Ok predictions ->
  transform model req w
  = (Ok (Json.object_text
           (zip (int_repr <$> range (len predictions)) (payloads predictions))),
     after_search model o text k w).
Proof.
  intros Hin Ho Htext Hk Hsearch.
  unfold transform, mbind at 1, lift at 1. rewrite Hin.
  unfold mbind. rewrite (predict_fn_search _ _ _ _ _ _ Ho Htext Hk), Hsearch.
  unfold lift. rewrite output_fn_eq. reflexivity.
Qed.

(** X9: a request fails exactly when input_fn fails or predict_fn
    fails, with the error of that hook: output_fn adds no failure. *)
Theorem transform_error_origin (model : loc) (req : Request) (w : World)
    (e : exn) :
  fst (transform model req w) = Err e
  <-> input_fn (body req) (content_type req) = Err e
      \/ exists input_data,
           input_fn (body req) (content_type req) = Ok input_data
           /\ fst (predict_fn input_data model w) = Err e.
Proof.
  unfold transform, mbind at 1, lift at 1.
  destruct (input_fn (body req) (content_type req)) as [input_data|e0].
  - unfold mbind, lift.
    destruct (predict_fn input_data model w) as [[predictions|e1] w'] eqn:Hp;
      simpl.
    + rewrite output_fn_eq. split; [discriminate|].
      intros [Hin|(v & Hv & He)]; [discriminate|].
      injection Hv as Hv. subst v. rewrite Hp in He. discriminate He.
    + split.
      * intros He. injection He as ->. right. exists input_data. rewrite Hp.
        split; reflexivity.
      * intros [Hin|(v & Hv & He)]; [discriminate|].
        injection Hv as Hv. subst v. rewrite Hp in He.
        injection He as ->. reflexivity.
  - simpl. split; [intros He; injection He as ->; left; reflexivity|].
    intros [Hin|(v & Hv & _)]; [injection Hin as ->; reflexivity|discriminate].
Qed.

(** X10: when model_fn returns a handle, it is a new object of the
    process holding the store FAISS.load_local returned for the index
    directory, the objects already there are untouched, and predict_fn
    with this handle searches that store. *)
Theorem model_fn_then_predict_fn (model_dir : str) (w w' : World) (model : loc)
    (input_data text k : pyval) :
  model_fn model_dir w = (Ok model, w') ->
  getitem input_data (lit "text") = Ok text ->
  getitem input_data (lit "k") = Ok k ->
  exists hf vs,
    HuggingFaceBgeEmbeddings bge_args = Ok hf
    /\ FAISS_load_local (os_path_join model_dir (lit "faiss_vector_store")) hf
       = Ok vs
    /\ heap w !! model = None
    /\ heap w' !! model = Some vs
    /\ (forall l, l <> model -> heap w' !! l = heap w !! l)
    /\ fst (predict_fn input_data model w') = fst (similarity_search vs text k).
Proof.
  intros Hload Htext Hk.
  unfold model_fn, mbind, new_embeddings, load_local, mbind, log, lift, mret
    in Hload.
  fold bge_args in Hload. simpl in Hload.
  destruct (HuggingFaceBgeEmbeddings bge_args) as [hf|e]; [|discriminate].
  simpl in Hload.
  destruct (FAISS_load_local (os_path_join model_dir (lit "faiss_vector_store")) hf)
    as [vs|e] eqn:Hvs; [|discriminate].
  injection Hload as <- <-. exists hf, vs. simpl.
  assert (Hfresh : heap w !! fresh (dom (heap w)) = None)
    by (apply not_elem_of_dom, is_fresh).
  split; [reflexivity|]. split; [exact Hvs|]. split; [exact Hfresh|].
  split; [apply lookup_insert_eq|].
  split; [intros l Hl; apply lookup_insert_ne; congruence|].
  erewrite predict_fn_search; [reflexivity| |exact Htext|exact Hk].
  apply lookup_insert_eq.
Qed.

Lemma endswith_snoc (s : str) (c : N) : endswith (s ++ [c]) c = true.
Proof. unfold endswith. rewrite last_snoc. apply N.eqb_refl. Qed.

Lemma os_path_join_trailing_slash (a b : str) :
  a <> [] -> endswith a 47%N = false ->
  os_path_join (a ++ lit "/") b = os_path_join a b.
Proof.
  intros Hne Hend. unfold os_path_join.
  destruct (startswith b 47%N); [reflexivity|].
  change (lit "/") with [47%N]. rewrite endswith_snoc, Hend.
  destruct a as [|c a]; [congruence|]. simpl app at 1.
  cbv iota. rewrite <- app_assoc. reflexivity.
Qed.

(** X11: a slash at the end of the model directory makes no
    difference to model_fn: the index is loaded from the same path. *)
Theorem model_fn_trailing_slash (model_dir : str) (w : World) :
  model_dir <> [] -> endswith model_dir 47%N = false ->
  model_fn (model_dir ++ lit "/") w = model_fn model_dir w.
Proof.
  intros Hne Hend. unfold model_fn.
  rewrite os_path_join_trailing_slash by assumption. reflexivity.
Qed.

End Pipeline.

(** ** The further properties on the reference process *)

Section FurtherRuns.

(** X3 at the first two passages, with and without their metadata. *)
Lemma output_fn_injective_witness :
  Forall (fun p => Forall is_scalar (page_content p)) [doc_a; doc_b]
  /\ Forall (fun p => Forall is_scalar (page_content p)) [bare_a; bare_b]
  /\ output_fn [doc_a; doc_b] (lit "application/json")
     = output_fn [bare_a; bare_b] (lit "text/plain")
  /\ page_content <$> [doc_a; doc_b] = page_content <$> [bare_a; bare_b].
Proof.
  assert (Hps : Forall (fun p => Forall is_scalar (page_content p)) [doc_a; doc_b])
    by (repeat (apply Forall_cons_2; [apply lit_scalar|]); apply Forall_nil_2).
  assert (Hqs : Forall (fun p => Forall is_scalar (page_content p)) [bare_a; bare_b])
    by (repeat (apply Forall_cons_2; [apply lit_scalar|]); apply Forall_nil_2).
  assert (Hout : output_fn [doc_a; doc_b] (lit "application/json")
                 = output_fn [bare_a; bare_b] (lit "text/plain"))
    by (vm_compute; reflexivity).
  split; [exact Hps|]. split; [exact Hqs|]. split; [exact Hout|].
  exact (output_fn_injective _ _ _ _ Hps Hqs Hout).
Defined.

(** X4 at the reference query and the same query with a field more. *)
Lemma predict_fn_reads_two_fields_witness :
  getitem ref_input (lit "text") = getitem ref_input_extra (lit "text")
  /\ getitem ref_input (lit "k") = getitem ref_input_extra (lit "k")
  /\ @predict_fn ref_lc ref_input ref_model ref_world
     = @predict_fn ref_lc ref_input_extra ref_model ref_world.
Proof.
  assert (Htext : getitem ref_input (lit "text")
                  = getitem ref_input_extra (lit "text"))
    by (vm_compute; reflexivity).
  assert (Hk : getitem ref_input (lit "k") = getitem ref_input_extra (lit "k"))
    by (vm_compute; reflexivity).
  split; [exact Htext|]. split; [exact Hk|].
  exact (@predict_fn_reads_two_fields ref_lc _ _ ref_model ref_world Htext Hk).
Defined.

(** X5 on the reference process, at the empty query. *)
Lemma predict_fn_field_errors_witness :
  is_Some (@heap ref_lc ref_world !! ref_model)
  /\ @predict_fn ref_lc (PyDict []) ref_model ref_world
     = (Err (KeyError (lit "text")), ref_world).
Proof.
  assert (Hm : is_Some (@heap ref_lc ref_world !! ref_model))
    by (exists ref_store; vm_compute; reflexivity).
  split; [exact Hm|].
  destruct (@predict_fn_field_errors ref_lc ref_model ref_world Hm)
    as (_ & Htext & _).
  apply Htext. reflexivity.
Defined.

(** X8 at the query for two results, on the reference process. *)
Lemma transform_success_witness :
  @input_fn ref_json (body (ref_request ref_query))
     (content_type (ref_request ref_query)) = Ok ref_input
  /\ @heap ref_lc ref_world !! ref_model = Some ref_store
  /\ getitem ref_input (lit "text") = Ok (PyStr (lit "example query"))
  /\ getitem ref_input (lit "k") = Ok (PyInt 2)
  /\ fst (@similarity_search ref_lc ref_store (PyStr (lit "example query"))
            (PyInt 2)) = Ok [doc_a; doc_b]
  /\ fst (@transform ref_json ref_lc ref_model (ref_request ref_query) ref_world)
     = Ok (Json.object_text
             (zip (int_repr <$> range (len [doc_a; doc_b]))
                  (payloads [doc_a; doc_b]))).
Proof.
  assert (Hin : @input_fn ref_json (body (ref_request ref_query))
                  (content_type (ref_request ref_query)) = Ok ref_input)
    by (vm_compute; reflexivity).
  assert (Ho : @heap ref_lc ref_world !! ref_model = Some ref_store)
    by (vm_compute; reflexivity).
  assert (Htext : getitem ref_input (lit "text")
                  = Ok (PyStr (lit "example query")))
    by (vm_compute; reflexivity).
  assert (Hk : getitem ref_input (lit "k") = Ok (PyInt 2))
    by (vm_compute; reflexivity).
  assert (Hs : fst (@similarity_search ref_lc ref_store
                      (PyStr (lit "example query")) (PyInt 2))
               = Ok [doc_a; doc_b])
    by (vm_compute; reflexivity).
  split; [exact Hin|]. split; [exact Ho|]. split; [exact Htext|].
  split; [exact Hk|]. split; [exact Hs|].
  rewrite (@transform_success ref_json ref_lc ref_model (ref_request ref_query)
             ref_world ref_input ref_store _ _ _ Hin Ho Htext Hk Hs).
  reflexivity.
Defined.

(** X10 on the reference disk. *)
Lemma model_fn_then_predict_fn_witness :
  @model_fn ref_lc (lit "/opt/ml/model") ref_start = (Ok ref_model, ref_world)
  /\ getitem ref_input (lit "text") = Ok (PyStr (lit "example query"))
  /\ getitem ref_input (lit "k") = Ok (PyInt 2)
  /\ exists vs,
       @heap ref_lc ref_world !! ref_model = Some vs
       /\ fst (@predict_fn ref_lc ref_input ref_model ref_world)
          = fst (@similarity_search ref_lc vs (PyStr (lit "example query"))
                   (PyInt 2)).
Proof.
  assert (Hload : @model_fn ref_lc (lit "/opt/ml/model") ref_start
                  = (Ok ref_model, ref_world))
    by (vm_compute; reflexivity).
  assert (Htext : getitem ref_input (lit "text")
                  = Ok (PyStr (lit "example query")))
    by (vm_compute; reflexivity).
  assert (Hk : getitem ref_input (lit "k") = Ok (PyInt 2))
    by (vm_compute; reflexivity).
  split; [exact Hload|]. split; [exact Htext|]. split; [exact Hk|].
  destruct (@model_fn_then_predict_fn ref_lc _ _ _ _ _ _ _ Hload Htext Hk)
    as (hf & vs & _ & _ & _ & Hvs & _ & Hp).
  exists vs. split; [exact Hvs|exact Hp].
Defined.

(** X11 at the model directory of a SageMaker container. *)
Lemma model_fn_trailing_slash_witness :
  lit "/opt/ml/model" <> []
  /\ endswith (lit "/opt/ml/model") 47%N = false
  /\ @model_fn ref_lc (lit "/opt/ml/model" ++ lit "/") ref_start
     = @model_fn ref_lc (lit "/opt/ml/model") ref_start.
Proof.
  assert (Hne : lit "/opt/ml/model" <> []) by (vm_compute; discriminate).
  assert (Hend : endswith (lit "/opt/ml/model") 47%N = false)
    by (vm_compute; reflexivity).
  split; [exact Hne|]. split; [exact Hend|].
  exact (@model_fn_trailing_slash ref_lc _ ref_start Hne Hend).
Defined.

End FurtherRuns.

(** ** Where the claims as first stated fail *)

Section ValidJson.

Import Rfc8259.



(** An ordinary text of the grammar. *)
Example json_text_array : json_text (lit "[1, true]").
Proof.
  exists [], (lit "[1, true]"), []. split; [constructor|].
  split; [|split; [constructor|reflexivity]].
  apply (value_array ([] ++ [49%N] ++ [] ++ 44%N :: ([32%N] ++ lit "true" ++ []))).
  apply elements_more; [constructor| |constructor|].
  - apply value_number.
    apply (number_parts [] [49%N] [] []);
      [left; reflexivity|constructor; [lia|constructor]|constructor..].
  - apply elements_one; [|apply value_true|constructor].
    apply Forall_cons_2; [tauto|constructor].
Qed.

End ValidJson.

Section Refuted.


(** An object body with the constant NaN for its text reaches the
    search itself. *)
Example nan_query_reaches_search :
  @calls ref_lc
    (snd (@transform ref_json ref_lc ref_model
            (ref_request (json_lit "{'text': NaN, 'k': 1}")) ref_world))
  = @calls ref_lc ref_world
    ++ [@CallSearch ref_lc ref_model (PyFloat (lit "NaN")) (PyInt 1)].
Proof. vm_compute. reflexivity. Qed.


End Refuted.
